(** * A bar-chart custom visual: [visualTransform] and [Visual.update]

    Shallow embedding of [src/custom-src/barchart/src/visual.ts].

    The visual receives an update payload from its host, turns the first
    category series and the first value series into a view model
    ([visualTransform]), and reconciles one [rect.bar] element per data
    point inside its bar container ([Visual.update]).

    Conventions of the embedding.
    - A JavaScript [number] is an IEEE 754 double (binary64), or the
      non-number that JavaScript writes [undefined] or [NaN]; sums,
      differences, products and quotients are rounded to the nearest
      double, ties to even, as the standard library's [SpecFloat] defines
      them.
    - A property that may be missing is an [option]; an array is a [list],
      and reading it out of range gives [None] ([undefined]).
    - Reading a property of [undefined] throws: [Throw TypeError].
    - The host services and the d3 library are collaborators of this
      repository; they are modelled separately and say so. *)

From Stdlib Require Import ZArith SpecFloat.
From stdpp Require Import base option list gmap strings numbers.

Local Open Scope string_scope.
Local Open Scope list_scope.
Local Open Scope Z_scope.

(** ** Numbers *)

(** A double that is a number: a zero or an infinity with its sign, or
    [(-1)^s * m * 2^e]. *)
Inductive double : Type :=
  | DZero (s : bool)
  | DInfinity (s : bool)
  | DFinite (s : bool) (m : positive) (e : Z).

#[global] Instance double_eq_dec : EqDecision double.
Proof. solve_decision. Defined.

Definition to_spec (x : double) : spec_float :=
  match x with
  | DZero s => S754_zero s
  | DInfinity s => S754_infinity s
  | DFinite s m e => S754_finite s m e
  end.

Definition number : Type := option double.

Definition NaN : number := None.

Definition of_spec (x : spec_float) : number :=
  match x with
  | S754_zero s => Some (DZero s)
  | S754_infinity s => Some (DInfinity s)
  | S754_finite s m e => Some (DFinite s m e)
  | S754_nan => NaN
  end.

(** binary64: 53 bits of precision, exponents below 1024. *)
Definition prec : Z := 53.
Definition emax : Z := 1024.

(** The mantissa and the exponent of a finite double are those of
    binary64. *)
Definition canonical (x : double) : Prop :=
  valid_binary prec emax (to_spec x) = true.

Definition is_finite (x : double) : bool :=
  match x with
  | DInfinity _ => false
  | _ => true
  end.

Definition is_zero (x : double) : bool :=
  match x with
  | DZero _ => true
  | _ => false
  end.

(** The double of an integer literal. *)
Definition double_of_Z (z : Z) : double :=
  match binary_normalize prec emax z 0 false with
  | S754_finite s m e => DFinite s m e
  | S754_infinity s => DInfinity s
  | S754_zero s => DZero s
  | S754_nan => DZero false
  end.

Definition lift2 (f : spec_float → spec_float → spec_float) (a b : number) : number :=
  match a, b with
  | Some x, Some y => of_spec (f (to_spec x) (to_spec y))
  | _, _ => NaN
  end.

Definition nadd : number → number → number := lift2 (SFadd prec emax).
Definition nsub : number → number → number := lift2 (SFsub prec emax).
Definition nmul : number → number → number := lift2 (SFmul prec emax).
Definition ndiv : number → number → number := lift2 (SFdiv prec emax).

Definition num (z : Z) : number := Some (double_of_Z z).

(** The double [1], which is [2^52 * 2^-52]. *)
Definition one : spec_float := S754_finite false 4503599627370496 (-52).

(** The decimal literal [n / d], as the double nearest to it. *)
Definition dec (n : Z) (d : positive) : number := ndiv (num n) (num (Zpos d)).

(** [a < b] and [a <= b], false as soon as one side is not a number. *)
Definition nlt (a b : number) : bool :=
  match a, b with
  | Some x, Some y => SFltb (to_spec x) (to_spec y)
  | _, _ => false
  end.

Definition nle (a b : number) : bool :=
  match a, b with
  | Some x, Some y => SFleb (to_spec x) (to_spec y)
  | _, _ => false
  end.

(** What JavaScript takes for false in a condition: a zero, or what is not
    a number. *)
Definition falsy (a : number) : bool :=
  match a with
  | Some x => is_zero x
  | None => true
  end.

Definition of_nat (n : nat) : number := num (Z.of_nat n).

Module Math.
(** [Math.floor]: the largest integer that is not above [a]; a double
    with a non-negative exponent is an integer. *)
Definition floor (a : number) : number :=
  match a with
  | Some (DFinite s m (Zneg k)) =>
      match Z.shiftr (cond_Zopp s (Zpos m)) (Zpos k) with
      | Z0 => Some (DZero s)
      | q => num q
      end
  | _ => a
  end.

(** [Math.round] rounds to the nearest integer, a half upwards. *)
Definition round (a : number) : number :=
  match a with
  | Some (DFinite s m (Zneg k)) =>
      match Z.shiftr (2 * cond_Zopp s (Zpos m) + 2 ^ Zpos k) (Zpos k + 1) with
      | Z0 => Some (DZero s)
      | q => num q
      end
  | _ => a
  end.

Definition max (a b : nat) : nat := Nat.max a b.
End Math.

(** [String(x)] of a label that may be [undefined]: the key under which
    JavaScript objects and d3 maps file it. *)
Definition String (x : option string) : string :=
  match x with
  | Some s => s
  | None => "undefined"
  end.

(** ** Exceptions *)

Inductive Error : Type := TypeError.

Inductive result (A : Type) : Type :=
  | Ok (a : A)
  | Throw (e : Error).
Arguments Ok {A} a.
Arguments Throw {A} e.

#[global] Instance result_ret : MRet result := λ A, Ok.
#[global] Instance result_bind : MBind result := λ A B f m,
  match m with
  | Ok a => f a
  | Throw e => Throw e
  end.

(** Reading a property of [o]: a [TypeError] when [o] is [undefined]. *)
Definition deref {A} (o : option A) : result A :=
  match o with
  | Some a => Ok a
  | None => Throw TypeError
  end.

(** ** The update payload (powerbi-visuals-api) *)

Module DataViewMetadataColumn.
Record t : Type := { displayName : string; queryName : string }.
End DataViewMetadataColumn.

Module DataViewCategoryColumn.
Record t : Type := {
  source : option DataViewMetadataColumn.t;
  values : list string
}.
End DataViewCategoryColumn.

Module DataViewValueColumn.
Record t : Type := {
  values : list double;
  maxLocal : number
}.
End DataViewValueColumn.

Module DataViewCategorical.
Record t : Type := {
  categories : option (list DataViewCategoryColumn.t);
  values : option (list DataViewValueColumn.t)
}.
End DataViewCategorical.

Module DataView.
Record t : Type := {
  categorical : option DataViewCategorical.t;
  (** the persisted object property [dataPoint.showAxis], when set *)
  objects_dataPoint_showAxis : option bool
}.
End DataView.

Module IViewport.
Record t : Type := { width : number; height : number }.
End IViewport.

Module VisualUpdateOptions.
Record t : Type := {
  dataViews : option (list DataView.t);
  viewport : IViewport.t
}.
End VisualUpdateOptions.

(** ** Host services *)

Module IColorInfo.
Record t : Type := { value : string }.
End IColorInfo.

(** The host's colour palette is a service outside this repository: its
    state is the theme, the index of the next theme colour, and the colours
    given so far, by key. *)
Module IColorPalette.
Record t : Type := {
  colors : nat → string;
  colorIndex : nat;
  colorPalette : gmap string string
}.

(** Modelled from the spec: [getColor] of the host's palette, which is
    not in the sources ("stable per-category color across updates,
    host-memoized"; "palette assigns new colors for unseen categories").
    The palette remembers the colour it gave to each key and hands the
    next colour of its theme to a key it has not seen. *)
Definition getColor (p : t) (key : option string) : IColorInfo.t * t :=
  match colorPalette p !! String key with
  | Some c => ({| IColorInfo.value := c |}, p)
  | None =>
      let c := colors p (colorIndex p) in
      ({| IColorInfo.value := c |},
       {| colors := colors p;
          colorIndex := S (colorIndex p);
          colorPalette := <[String key := c]> (colorPalette p) |})
  end.
End IColorPalette.

(** The host's selection handles are opaque to the visual; a handle
    records what its builder was given. *)
Module ISelectionId.
Record t : Type := { dataMap : list (DataViewCategoryColumn.t * nat) }.
End ISelectionId.

Module ISelectionIdBuilder.
Record t : Type := { dataMap : list (DataViewCategoryColumn.t * nat) }.

(** Modelled from the spec: the host's selection-id builder, which is not
    in the sources ("a selection handle built by the host's selection-id
    builder scoped to that category row index"). *)
Definition withCategory (b : t) (category : DataViewCategoryColumn.t) (i : nat) : t :=
  {| dataMap := dataMap b ++ [(category, i)] |}.

Definition createSelectionId (b : t) : ISelectionId.t :=
  {| ISelectionId.dataMap := dataMap b |}.
End ISelectionIdBuilder.

Module IVisualHost.
Record t : Type := { colorPalette : IColorPalette.t }.

Definition createSelectionIdBuilder (h : t) : ISelectionIdBuilder.t :=
  {| ISelectionIdBuilder.dataMap := [] |}.
End IVisualHost.

(** ** The view model *)

Module BarChartDataPoint.
Record t : Type := {
  value : number;
  category : option string;
  color : string;
  selectionID : ISelectionId.t
}.
End BarChartDataPoint.

Module BarChartViewModel.
Record t : Type := {
  dataPoints : list BarChartDataPoint.t;
  dataMax : number
}.
End BarChartViewModel.

(** ** [visualTransform] *)

(** The empty view model [{ dataPoints: [], dataMax: 0 }] (lines 71-74). *)
Definition dataInfo : BarChartViewModel.t :=
  {| BarChartViewModel.dataPoints := []; BarChartViewModel.dataMax := num 0 |}.

(** The condition of the guard (lines 76-81), [true] when it returns
    [dataInfo].  The disjuncts are evaluated left to right and the first
    true one ends the evaluation; [categories[0].source] reads a property
    of [categories[0]] without asking whether it is there. *)
Definition noData (dataViews : option (list DataView.t)) : result bool :=
  match dataViews with
  | None => Ok true
  | Some dataViews =>
  match dataViews !! 0%nat with
  | None => Ok true
  | Some dataView0 =>
  match DataView.categorical dataView0 with
  | None => Ok true
  | Some categorical =>
  match DataViewCategorical.categories categorical with
  | None => Ok true
  | Some categories =>
      category0 ← deref (categories !! 0%nat);
      match DataViewCategoryColumn.source category0 with
      | None => Ok true
      | Some _ =>
      match DataViewCategorical.values categorical with
      | None => Ok true
      | Some _ => Ok false
      end end
  end end end end.

(** The body of the [for] loop (lines 93-100), from index [i] for [n] more
    rounds; the points are pushed in index order, and the palette is the
    only state the rounds share. *)
Fixpoint pushDataPoints (host : IVisualHost.t)
    (category : DataViewCategoryColumn.t) (dataValue : DataViewValueColumn.t)
    (i n : nat) (colorPalette : IColorPalette.t)
    : list BarChartDataPoint.t * IColorPalette.t :=
  match n with
  | O => ([], colorPalette)
  | S n =>
      let '(colorInfo, colorPalette) :=
        IColorPalette.getColor colorPalette (DataViewCategoryColumn.values category !! i) in
      let dataPoint :=
        {| BarChartDataPoint.category := DataViewCategoryColumn.values category !! i;
           BarChartDataPoint.value := DataViewValueColumn.values dataValue !! i;
           BarChartDataPoint.color := IColorInfo.value colorInfo;
           BarChartDataPoint.selectionID :=
             ISelectionIdBuilder.createSelectionId
               (ISelectionIdBuilder.withCategory
                  (IVisualHost.createSelectionIdBuilder host) category i) |} in
      let '(dataPoints, colorPalette) :=
        pushDataPoints host category dataValue (S i) n colorPalette in
      (dataPoint :: dataPoints, colorPalette)
  end.

Definition visualTransform (options : VisualUpdateOptions.t) (host : IVisualHost.t)
    : result (BarChartViewModel.t * IVisualHost.t) :=
  let dataViews := VisualUpdateOptions.dataViews options in
  stop ← noData dataViews;
  if (stop : bool) then Ok (dataInfo, host) else
  dataViews ← deref dataViews;
  dataView0 ← deref (dataViews !! 0%nat);
  categorical ← deref (DataView.categorical dataView0);
  categories ← deref (DataViewCategorical.categories categorical);
  let category := categories !! 0%nat in
  values ← deref (DataViewCategorical.values categorical);
  let dataValue := values !! 0%nat in
  let colorPalette := IVisualHost.colorPalette host in
  category ← deref category;
  dataValue ← deref dataValue;
  let len := Math.max (length (DataViewCategoryColumn.values category))
                      (length (DataViewValueColumn.values dataValue)) in
  let '(dataPoints, colorPalette) :=
    pushDataPoints host category dataValue 0 len colorPalette in
  let dataMax := DataViewValueColumn.maxLocal dataValue in
  Ok ({| BarChartViewModel.dataPoints := dataPoints;
         BarChartViewModel.dataMax := dataMax |},
      {| IVisualHost.colorPalette := colorPalette |}).

(** ** The d3 library (version 3) *)

(** The rendering library is a collaborator that is not part of this
    repository.  The definitions follow the calls that [Visual.update]
    makes: [d3.min], [d3.scale.linear], [d3.scale.ordinal] with [domain]
    and [rangeRoundBands]. *)
Module d3.

(** Modelled from the spec: [d3.min], which is not in the sources ("the
    smaller viewport dimension").  The smallest number of an array; what
    is not a number is skipped. *)
Definition min (array : list number) : number :=
  fold_left
    (λ a b, match a, b with
            | None, _ => b
            | Some _, None => a
            | Some _, Some _ => if nlt b a then b else a
            end)
    array NaN.

(** Modelled from the spec: the two halves of d3's linear scale, which is
    not in the sources ("a linear value scale mapping [0, dataMax] ->
    [plotHeight, 0]"): [uninterpolateNumber a b] sends [[a, b]] to
    [[0, 1]], dividing by [b - a], or by [1 / (b - a)] when [b - a] is
    zero or not a number; [interpolateNumber a b] sends [[0, 1]] to
    [[a, b]]. *)
Definition uninterpolateNumber (a b : number) (x : number) : number :=
  let b := nsub b a in
  let b := if falsy b then ndiv (num 1) b else b in
  ndiv (nsub x a) b.

Definition interpolateNumber (a b : number) (t : number) : number :=
  nadd (nmul a (nsub (num 1) t)) (nmul b t).

Module scale.

(** Modelled from the spec: d3's linear scale, which is not in the
    sources; [d3.scale.linear().domain([d0, d1]).range([r0, r1])],
    applied to [x]. *)
Definition linear (domain range : number * number) (x : number) : number :=
  interpolateNumber (fst range) (snd range)
    (uninterpolateNumber (fst domain) (snd domain) x).

Record ordinal : Type := {
  domain : list (option string);
  range : list number;
  rangeBand : number
}.

Definition ordinal_new : ordinal :=
  {| domain := []; range := []; rangeBand := num 0 |}.

(** Modelled from the spec: the domain of d3's ordinal scale, which is not
    in the sources ("the ordered category labels").  [scale.domain(x)]
    keeps the values of [x] in order, a value whose key is already there
    being skipped. *)
Fixpoint domain_push (domain x : list (option string)) : list (option string) :=
  match x with
  | [] => domain
  | xi :: x =>
      if bool_decide (String xi ∈ String <$> domain)
      then domain_push domain x
      else domain_push (domain ++ [xi]) x
  end.

Definition set_domain (s : ordinal) (x : list (option string)) : ordinal :=
  {| domain := domain_push [] x; range := []; rangeBand := num 0 |}.

Definition steps (n : nat) (start step : number) : list number :=
  (λ i, nadd start (nmul step (of_nat i))) <$> seq 0 n.

(** Modelled from the spec: [rangeRoundBands] of d3's ordinal scale, which
    is not in the sources ("evenly spaced horizontal bands spanning
    [0, width] with inner padding ratio 0.1 and outer padding ratio 0.2").
    The step between band starts is the whole part of the interval
    divided by the number of labels less the inner padding plus twice the
    outer padding; what is left over is split before and after the bands;
    the band width is the rounded share of the step that the inner padding
    leaves. *)
Definition rangeRoundBands (s : ordinal) (x : number * number)
    (padding outerPadding : number) : ordinal :=
  let reverse := nlt (snd x) (fst x) in
  let start := if reverse then snd x else fst x in
  let stop := if reverse then fst x else snd x in
  let n := of_nat (length (domain s)) in
  let step :=
    Math.floor (ndiv (nsub stop start)
                     (nadd (nsub n padding) (nmul (num 2) outerPadding))) in
  let range :=
    steps (length (domain s))
      (nadd start
         (Math.round (ndiv (nsub (nsub stop start) (nmul (nsub n padding) step))
                           (num 2))))
      step in
  {| domain := domain s;
     range := if reverse then rev range else range;
     rangeBand := Math.round (nmul step (nsub (num 1) padding)) |}.

(** Position of the first value of [domain] filed under [key]. *)
Fixpoint index_get (domain : list (option string)) (key : string) : option nat :=
  match domain with
  | [] => None
  | d :: domain =>
      if bool_decide (String d = key) then Some O
      else S <$> index_get domain key
  end.

(** Modelled from the spec: the call of d3's ordinal scale, which is not
    in the sources ("horizontal position equals the category scale's band
    start").  [scale(x)] is the band start of [x], not a number when [x]
    is not in the domain. *)
Definition call (s : ordinal) (x : option string) : number :=
  match index_get (domain s) (String x) with
  | Some i => default NaN (range s !! (i mod length (range s))%nat)
  | None => NaN
  end.

End scale.
End d3.

(** ** Settings *)

(** [settings.ts] of this repository is not among the sources. *)
Module dataPointSettings.
Record t : Type := { showAxis : bool }.
End dataPointSettings.

Module VisualSettings.
Record t : Type := { dataPoint : dataPointSettings.t }.

(** Modelled from the spec: the defaults of [settings.ts], which is not in
    the sources ("defaults showAxis = false"). *)
Definition getDefault : t :=
  {| dataPoint := {| dataPointSettings.showAxis := false |} |}.

(** Modelled from the spec: [VisualSettings.parse] of [settings.ts], which
    is not in the sources ("parsed from host-persisted object properties
    each update"; "falls back to defaults if absent"). *)
Definition parse (dataView : option DataView.t) : t :=
  match dataView with
  | Some dv =>
      match DataView.objects_dataPoint_showAxis dv with
      | Some b => {| dataPoint := {| dataPointSettings.showAxis := b |} |}
      | None => getDefault
      end
  | None => getDefault
  end.
End VisualSettings.

(** ** Elements of the drawing surface *)

(** The value of an attribute or style property.  [ATranslate x y] is the
    string ['translate(' + x + ', ' + y + ')']. *)
Inductive AttrValue : Type :=
  | ANumber (n : number)
  | AString (s : string)
  | ATranslate (x y : number).

#[global] Instance AttrValue_eq_dec : EqDecision AttrValue.
Proof. solve_decision. Defined.

(** The click listener of a bar is a closure; what it keeps of its
    environment is [bars], the selection of the update that installed it,
    as the identities of its nodes. *)
Module ClickListener.
Record t : Type := { bars : list nat }.
End ClickListener.

(** A [rect.bar] element: the identity of the node, the datum that the
    data join bound to it, its attributes and its click listener. *)
Module Rect.
Record t : Type := {
  node : nat;
  __data__ : BarChartDataPoint.t;
  attrs : gmap string AttrValue;
  onclick : option ClickListener.t
}.

Definition attr (name : string) (v : AttrValue) (r : t) : t :=
  {| node := node r; __data__ := __data__ r;
     attrs := <[name := v]> (attrs r); onclick := onclick r |}.

Definition on_click (l : ClickListener.t) (r : t) : t :=
  {| node := node r; __data__ := __data__ r;
     attrs := attrs r; onclick := Some l |}.

Definition bind (r : t) (d : BarChartDataPoint.t) : t :=
  {| node := node r; __data__ := d; attrs := attrs r; onclick := onclick r |}.

(** [append('rect').classed('bar', true)] for an entering datum. *)
Definition create (id : nat) (d : BarChartDataPoint.t) : t :=
  {| node := id; __data__ := d; attrs := ∅; onclick := None |}.
End Rect.

(** The axis group [g.xAxis]. *)
Module Axis.
Record t : Type := {
  style : gmap string AttrValue;
  attrs : gmap string AttrValue;
  ticks : list (option string)
}.
End Axis.

(** d3's selections, as far as [Visual.update] uses them on the bars. *)
Module selection.
Record join : Type := {
  update : list Rect.t;
  enter : list BarChartDataPoint.t;
  exit : list Rect.t
}.

(** Modelled from the spec: d3's data join, which is not in the sources
    ("newly appearing points get a new bar element; elements for points no
    longer present are removed; surviving elements have geometry
    updated").  Without a key function the join is by index: node [i] of
    the group gets datum [i]. *)
Definition data (group : list Rect.t) (values : list BarChartDataPoint.t) : join :=
  {| update := zip_with Rect.bind group values;
     enter := drop (length group) values;
     exit := drop (length values) group |}.

(** Modelled from the spec: [enter().append('rect')] of d3, which is not
    in the sources ("newly appearing points get a new bar element"): one
    new node per entering datum, with the identities [next], [next + 1],
    ... *)
Definition append (next : nat) (enter : list BarChartDataPoint.t) : list Rect.t :=
  imap (λ k d, Rect.create (next + k) d) enter.
End selection.

(** ** The visual *)

Inductive completion : Type :=
  | Normal
  | Abrupt (e : Error).

Module Visual.

(** The fields of the class, the elements standing for themselves:
    [svg] is the attribute map of the root [svg.barchart],
    [barContainer] the children of [g.barContainer], which are the
    [rect.bar] elements that [update] put there.  [created] counts the
    [rect] nodes created so far and names the next one. *)
Record t : Type := {
  svg : gmap string AttrValue;
  barContainer : list Rect.t;
  settings : option VisualSettings.t;
  host : IVisualHost.t;
  xAxis : Axis.t;
  created : nat
}.

Definition constructor (host : IVisualHost.t) : t :=
  {| svg := ∅;
     barContainer := [];
     settings := None;
     host := host;
     xAxis := {| Axis.style := ∅; Axis.attrs := ∅; Axis.ticks := [] |};
     created := 0 |}.

Definition parseSettings (dataView : option DataView.t) : VisualSettings.t :=
  VisualSettings.parse dataView.

(** The plotting height (lines 146-148). *)
Definition plotHeight (settings : VisualSettings.t) (height : number) : number :=
  if dataPointSettings.showAxis (VisualSettings.dataPoint settings)
  then nsub height (num 25)
  else height.

(** The attributes that [bars.attr] gives to a bar (lines 179-185). *)
Definition bar_attr (xScale : d3.scale.ordinal) (yScale : number → number)
    (height : number) (r : Rect.t) : Rect.t :=
  let data := Rect.__data__ r in
  Rect.attr "fill" (AString (BarChartDataPoint.color data))
    (Rect.attr "y" (ANumber (yScale (BarChartDataPoint.value data)))
      (Rect.attr "x" (ANumber (d3.scale.call xScale (BarChartDataPoint.category data)))
        (Rect.attr "height"
           (ANumber (nsub height (yScale (BarChartDataPoint.value data))))
          (Rect.attr "width" (ANumber (d3.scale.rangeBand xScale)) r)))).

(** The font size of the axis labels (lines 151-153). *)
Definition fontSize (height width : number) : number :=
  nmul (d3.min [height; width]) (dec 4 100).

(** The two scales (lines 155-161). *)
Definition yScale (transformedData : BarChartViewModel.t) (height : number)
    : number → number :=
  d3.scale.linear (num 0, BarChartViewModel.dataMax transformedData) (height, num 0).

Definition xScale (transformedData : BarChartViewModel.t) (width : number)
    : d3.scale.ordinal :=
  d3.scale.rangeRoundBands
    (d3.scale.set_domain d3.scale.ordinal_new
       (BarChartDataPoint.category <$> BarChartViewModel.dataPoints transformedData))
    (num 0, width) (dec 1 10) (dec 2 10).

Definition update (this : t) (options : VisualUpdateOptions.t) : t * completion :=
  let settings :=
    parseSettings (VisualUpdateOptions.dataViews options ≫= (λ dvs, dvs !! 0%nat)) in
  match visualTransform options (host this) with
  | Throw e =>
      (* the exception leaves [update]; [this.settings] is already set *)
      ({| svg := svg this; barContainer := barContainer this;
          settings := Some settings; host := host this;
          xAxis := xAxis this; created := created this |},
       Abrupt e)
  | Ok (transformedData, host) =>
      let width := IViewport.width (VisualUpdateOptions.viewport options) in
      let height := IViewport.height (VisualUpdateOptions.viewport options) in
      let svg :=
        <["height" := ANumber height]> (<["width" := ANumber width]> (svg this)) in
      let height := plotHeight settings height in
      let style :=
        <["font-size" := ANumber (fontSize height width)]> (Axis.style (xAxis this)) in
      let yScale := yScale transformedData height in
      let xScale := xScale transformedData width in
      let xAxis :=
        {| Axis.style := style;
           Axis.attrs :=
             <["transform" := ATranslate (num 0) height]> (Axis.attrs (xAxis this));
           Axis.ticks := d3.scale.domain xScale |} in
      let bars :=
        selection.data (barContainer this)
                       (BarChartViewModel.dataPoints transformedData) in
      let entered := selection.append (created this) (selection.enter bars) in
      (* the entered nodes join the update selection, each at the index
         of its datum *)
      let bars := selection.update bars ++ entered in
      let bars := bar_attr xScale yScale height <$> bars in
      let listener := {| ClickListener.bars := Rect.node <$> bars |} in
      let bars := Rect.on_click listener <$> bars in
      (* [bars.exit().remove()]: the container keeps the nodes of [bars] *)
      ({| svg := svg; barContainer := bars;
          settings := Some settings; host := host;
          xAxis := xAxis; created := created this + length entered |},
       Normal)
  end.

(** A selection-toggle that was asked of the selection manager and whose
    continuation has not run yet (lines 189-190): the handle, and what
    the continuation keeps of the listener: [bars] and the clicked
    node. *)
Record pending : Type := {
  request : ISelectionId.t;
  bars : list nat;
  clicked : nat
}.

(** A click on the bar [node]: the listener of the bar, if it has one,
    calls [selectionManager.select(dataPoint.selectionID)]. *)
Definition click (this : t) (node : nat) : option pending :=
  r ← list_find (λ r, Rect.node r = node) (barContainer this) ≫= (λ ir, Some (snd ir));
  l ← Rect.onclick r;
  Some {| request := BarChartDataPoint.selectionID (Rect.__data__ r);
          bars := ClickListener.bars l;
          clicked := node |}.

(** The continuation of the toggle, run with the active selection [ids]
    (lines 190-197). *)
Definition resolved (p : pending) (ids : list ISelectionId.t) (this : t) : t :=
  let opacity := if bool_decide (0 < length ids)%nat then dec 1 2 else num 1 in
  let dim (r : Rect.t) :=
    if bool_decide (Rect.node r ∈ bars p)
    then Rect.attr "fill-opacity" (ANumber opacity) r else r in
  let restore (r : Rect.t) :=
    if bool_decide (Rect.node r = clicked p)
    then Rect.attr "fill-opacity" (ANumber (num 1)) r else r in
  {| svg := svg this;
     barContainer := restore <$> (dim <$> barContainer this);
     settings := settings this; host := host this;
     xAxis := xAxis this; created := created this |}.

(** [enumerateObjectInstances] (lines 212-214) hands the settings of the
    visual, or the defaults while there are none, to the enumeration of
    [settings.ts], which is not among the sources and is the parameter
    [enumerate]. *)
Definition enumerateObjectInstances {O R : Type}
    (enumerate : VisualSettings.t → O → R) (this : t) (options : O) : R :=
  enumerate (default VisualSettings.getDefault (settings this)) options.

End Visual.

(** * Vocabulary of the statements *)

(** ** Parts of a payload *)

(** The first data view, from which the settings are parsed. *)
Definition first_dataView (options : VisualUpdateOptions.t) : option DataView.t :=
  VisualUpdateOptions.dataViews options ≫= (λ dvs, dvs !! 0%nat).

(** [categorical.categories[0]] and [categorical.values[0]] of the first
    data view: the category series and the value series of a payload. *)
Definition first_categorical (options : VisualUpdateOptions.t) : option DataViewCategorical.t :=
  dataViews ← VisualUpdateOptions.dataViews options;
  dataView0 ← dataViews !! 0%nat;
  DataView.categorical dataView0.

Definition category_series (options : VisualUpdateOptions.t) : option DataViewCategoryColumn.t :=
  categorical ← first_categorical options;
  categories ← DataViewCategorical.categories categorical;
  categories !! 0%nat.

Definition value_series (options : VisualUpdateOptions.t) : option DataViewValueColumn.t :=
  categorical ← first_categorical options;
  values ← DataViewCategorical.values categorical;
  values !! 0%nat.

(** ** Data points *)

(** The colour that the palette [p] answers for a label. *)
Definition palette_color (p : IColorPalette.t) (label : option string) : string :=
  IColorInfo.value (fst (IColorPalette.getColor p label)).

(** The handle that the host's builder makes for row [i] of [category]. *)
Definition handle_of (host : IVisualHost.t) (category : DataViewCategoryColumn.t) (i : nat)
    : ISelectionId.t :=
  ISelectionIdBuilder.createSelectionId
    (ISelectionIdBuilder.withCategory (IVisualHost.createSelectionIdBuilder host) category i).

(** Two data points with the same category, value and colour. *)
Definition same_point (p q : BarChartDataPoint.t) : Prop :=
  BarChartDataPoint.category p = BarChartDataPoint.category q
  ∧ BarChartDataPoint.value p = BarChartDataPoint.value q
  ∧ BarChartDataPoint.color p = BarChartDataPoint.color q.

(** ** Bars *)

(** The attribute [name] of a bar. *)
Definition attribute (r : Rect.t) (name : string) : option AttrValue :=
  Rect.attrs r !! name.

(** The opacities of the bars, in order. *)
Definition opacities (this : Visual.t) : list (option AttrValue) :=
  (λ r, attribute r "fill-opacity") <$> Visual.barContainer this.

(** The selection [bars] of an update before [bars.attr]: the old bars
    that were joined to a row, followed by the bars that were created for
    the other rows. *)
Definition joined (old : list Rect.t) (next : nat) (values : list BarChartDataPoint.t)
    : list Rect.t :=
  selection.update (selection.data old values)
  ++ selection.append next (selection.enter (selection.data old values)).

(** The nodes of the bars are pairwise different, and older than the next
    node that will be created. *)
Definition distinct_nodes (this : Visual.t) : Prop :=
  NoDup (Rect.node <$> Visual.barContainer this)
  ∧ Forall (λ r, (Rect.node r < Visual.created this)%nat) (Visual.barContainer this).

(** The states of a visual: the host constructs it, calls [update], and
    runs the continuations of selection toggles. *)
Inductive reachable : Visual.t → Prop :=
  | reachable_constructor host :
      reachable (Visual.constructor host)
  | reachable_update this options :
      reachable this → reachable (fst (Visual.update this options))
  | reachable_resolved this p ids :
      reachable this → reachable (Visual.resolved p ids this).

(** The smaller of two numbers. *)
Definition smaller (a b : double) : double :=
  if nle (Some a) (Some b) then a else b.

(** ** Two statements that do not hold *)

(** The font size of the axis labels taken from the viewport as it is:
    0.04 times the smaller of its width and its height. *)
Definition fontSize_of_viewport (this : Visual.t) (options : VisualUpdateOptions.t) : Prop :=
  ∀ this' w h,
    Visual.update this options = (this', Normal) →
    IViewport.width (VisualUpdateOptions.viewport options) = Some w →
    IViewport.height (VisualUpdateOptions.viewport options) = Some h →
    Axis.style (Visual.xAxis this') !! "font-size"
    = Some (ANumber (nmul (Some (smaller w h)) (dec 4 100))).

(** The continuation of a toggle that comes back with no active selection
    changes nothing. *)
Definition empty_selection_is_noop (this : Visual.t) (node : nat) : Prop :=
  ∀ p, Visual.click this node = Some p → Visual.resolved p [] this = this.

(** ** Payloads, hosts and states of the examples *)

(** A payload of one data view. *)
Definition payload (categorical : option DataViewCategorical.t) (showAxis : option bool)
    (width height : Z) : VisualUpdateOptions.t :=
  {| VisualUpdateOptions.dataViews :=
       Some [ {| DataView.categorical := categorical;
                 DataView.objects_dataPoint_showAxis := showAxis |} ];
     VisualUpdateOptions.viewport :=
       {| IViewport.width := num width; IViewport.height := num height |} |}.

Definition quarter : DataViewMetadataColumn.t :=
  {| DataViewMetadataColumn.displayName := "Quarter";
     DataViewMetadataColumn.queryName := "Sales.Quarter" |}.

Definition quarters : DataViewCategoryColumn.t :=
  {| DataViewCategoryColumn.source := Some quarter;
     DataViewCategoryColumn.values := ["Q1"; "Q2"; "Q3"] |}.

Definition amounts : DataViewValueColumn.t :=
  {| DataViewValueColumn.values := [double_of_Z 10; double_of_Z 20; double_of_Z 5];
     DataViewValueColumn.maxLocal := num 20 |}.

(** The same values, the host reporting 7 as their maximum. *)
Definition amounts_max_7 : DataViewValueColumn.t :=
  {| DataViewValueColumn.values := [double_of_Z 10; double_of_Z 20; double_of_Z 5];
     DataViewValueColumn.maxLocal := num 7 |}.

(** The payload of the end-to-end scenario: viewport 400 x 300, no axis,
    categories Q1, Q2, Q3 with the values 10, 20, 5 and [maxLocal] 20. *)
Definition scenario : VisualUpdateOptions.t :=
  payload (Some {| DataViewCategorical.categories := Some [quarters];
                   DataViewCategorical.values := Some [amounts] |})
          (Some false) 400 300.

Definition stale_maximum : VisualUpdateOptions.t :=
  payload (Some {| DataViewCategorical.categories := Some [quarters];
                   DataViewCategorical.values := Some [amounts_max_7] |})
          (Some false) 400 300.

(** A value series is missing and the categories array is empty. *)
Definition no_values_empty_categories : VisualUpdateOptions.t :=
  payload (Some {| DataViewCategorical.categories := Some [];
                   DataViewCategorical.values := None |})
          None 400 300.

(** A categories array with a series, and an empty values array. *)
Definition empty_values : VisualUpdateOptions.t :=
  payload (Some {| DataViewCategorical.categories := Some [quarters];
                   DataViewCategorical.values := Some [] |})
          None 400 300.

(** A payload without data that asks for the axis, viewport 200 x 100. *)
Definition axis_200_100 : VisualUpdateOptions.t := payload None (Some true) 200 100.

(** A host whose palette has given no colour yet. *)
Definition theme (n : nat) : string :=
  match n with
  | 0%nat => "#01B8AA"
  | 1%nat => "#374649"
  | _ => "#FD625E"
  end.

Definition fresh_host : IVisualHost.t :=
  {| IVisualHost.colorPalette :=
       {| IColorPalette.colors := theme;
          IColorPalette.colorIndex := 0;
          IColorPalette.colorPalette := ∅ |} |}.

(** The visual after the update of the scenario. *)
Definition rendered : Visual.t :=
  fst (Visual.update (Visual.constructor fresh_host) scenario).

(** Then a click on the first bar, and the continuation of the toggle with
    that bar's handle as the active selection: the other two bars are
    dimmed. *)
Definition dimmed : Visual.t :=
  match Visual.click rendered 0 with
  | Some p => Visual.resolved p [Visual.request p] rendered
  | None => rendered
  end.

(** ** What [visualTransform] reads of a payload *)

(** Whether the first data view has a categorical part, whether its
    categories and its values are there, and their first elements. *)
Definition read_part (options : VisualUpdateOptions.t)
    : option (option (option DataViewCategoryColumn.t)
              * option (option DataViewValueColumn.t)) :=
  (λ c, ((λ l, l !! 0%nat) <$> DataViewCategorical.categories c,
         (λ l, l !! 0%nat) <$> DataViewCategorical.values c))
  <$> first_categorical options.

(** ** Listeners *)

(** Every bar has a click listener, and the selection that the listener
    holds is the bars that are there. *)
Definition listeners_current (this : Visual.t) : Prop :=
  Forall (λ r, Rect.onclick r
               = Some {| ClickListener.bars := Rect.node <$> Visual.barContainer this |})
         (Visual.barContainer this).

(** ** More payloads and states of the examples *)

(** One category and three values. *)
Definition one_category_three_values : VisualUpdateOptions.t :=
  payload (Some {| DataViewCategorical.categories := Some [
                     {| DataViewCategoryColumn.source := Some quarter;
                        DataViewCategoryColumn.values := ["Q1"] |} ];
                   DataViewCategorical.values := Some [amounts] |})
          None 400 300.

(** The label Q1 in two rows. *)
Definition repeated_label : VisualUpdateOptions.t :=
  payload (Some {| DataViewCategorical.categories := Some [
                     {| DataViewCategoryColumn.source := Some quarter;
                        DataViewCategoryColumn.values := ["Q1"; "Q2"; "Q1"] |} ];
                   DataViewCategorical.values := Some [amounts] |})
          None 400 300.

(** Four rows. *)
Definition four_quarters : VisualUpdateOptions.t :=
  payload (Some {| DataViewCategorical.categories := Some [
                     {| DataViewCategoryColumn.source := Some quarter;
                        DataViewCategoryColumn.values := ["Q1"; "Q2"; "Q3"; "Q4"] |} ];
                   DataViewCategorical.values := Some [
                     {| DataViewValueColumn.values := [double_of_Z 10; double_of_Z 20; double_of_Z 5; double_of_Z 8];
                        DataViewValueColumn.maxLocal := num 20 |} ] |})
          (Some false) 400 300.

(** The rows of the scenario in a payload with another viewport, the axis
    asked for, a second category series, a second value series and a second
    data view. *)
Definition scenario_elsewhere : VisualUpdateOptions.t :=
  {| VisualUpdateOptions.dataViews := Some [
       {| DataView.categorical := Some
            {| DataViewCategorical.categories := Some [quarters; quarters];
               DataViewCategorical.values := Some [amounts; amounts_max_7] |};
          DataView.objects_dataPoint_showAxis := Some true |};
       {| DataView.categorical := None;
          DataView.objects_dataPoint_showAxis := None |} ];
     VisualUpdateOptions.viewport :=
       {| IViewport.width := num 10; IViewport.height := num 20 |} |}.

(** Five rows in a viewport of 212 x 300. *)
Definition five_labels : VisualUpdateOptions.t :=
  payload (Some {| DataViewCategorical.categories := Some [
                     {| DataViewCategoryColumn.source := Some quarter;
                        DataViewCategoryColumn.values := ["A"; "B"; "C"; "D"; "E"] |} ];
                   DataViewCategorical.values := Some [
                     {| DataViewValueColumn.values :=
                          [double_of_Z 1; double_of_Z 2; double_of_Z 3;
                           double_of_Z 2; double_of_Z 1];
                        DataViewValueColumn.maxLocal := num 3 |} ] |})
          (Some false) 212 300.

(** The visual after the update of [stale_maximum], whose values go beyond
    the maximum that the host reports. *)
Definition rendered_stale : Visual.t :=
  fst (Visual.update (Visual.constructor fresh_host) stale_maximum).

(** ** Tactics *)

(** An equation between closed values, decided by evaluation. *)
Ltac by_computation := apply (bool_decide_unpack _); vm_compute; exact I.

(** * Properties of the arithmetic *)

(** ** Products, quotients and differences that are exact *)

(** A double times one is that double. *)
Lemma SFmul_1 s m e :
  bounded prec emax m e = true →
  SFmul prec emax (S754_finite s m e) one = S754_finite s m e.
Proof.
  unfold bounded, canonical_mantissa, prec, emax.
  intros [Hc He]%andb_true_iff. apply Z.eqb_eq in Hc.
  unfold one, SFmul, binary_round_aux, shr_fexp.
  assert ((m * 4503599627370496)%positive = Pos.iter xO m 52) as ->.
  { rewrite Pos.mul_comm. by vm_compute. }
  assert (Zdigits2 (Z.pos (Pos.iter xO m 52)) = Z.pos (digits2_pos m) + 52) as ->.
  { cbn [Zdigits2 Pos.iter digits2_pos]. lia. }
  assert (fexp 53 1024 (Z.pos (digits2_pos m) + 52 + (e + -52)) - (e + -52) = 52) as ->.
  { unfold fexp, emin in *. lia. }
  cbn [shr shr_record_of_loc].
  assert (SpecFloat.iter_pos shr_1 52
            {| shr_m := Z.pos (Pos.iter xO m 52); shr_r := false; shr_s := false |}
          = {| shr_m := Z.pos m; shr_r := false; shr_s := false |}) as -> by reflexivity.
  cbn [shr_m loc_of_shr_record round_nearest_even Zdigits2].
  replace (e + -52 + 52) with e by lia.
  assert (fexp 53 1024 (Z.pos (digits2_pos m) + e) - e = 0) as -> by lia.
  cbn [shr shr_m]. rewrite He. by destruct s.
Qed.

(** A finite double divided by itself is one, whatever its mantissa. *)
Lemma SFdiv_diag s m e :
  SFdiv prec emax (S754_finite s m e) (S754_finite s m e) = one.
Proof.
  unfold SFdiv, SFdiv_core_binary, prec, emax.
  rewrite !Z.sub_diag.
  change (Z.min (fexp 53 1024 0) 0) with (-53).
  change (0 - -53) with 53. cbv iota beta.
  assert (Z.shiftl (Z.pos m) 53 / Z.pos m = 2 ^ 53) as Hq.
  { rewrite Z.shiftl_mul_pow2, Z.mul_comm, Z.div_mul; lia. }
  assert (Z.shiftl (Z.pos m) 53 mod Z.pos m = 0) as Hr.
  { rewrite Z.shiftl_mul_pow2, Z.mul_comm, Z.mod_mul; lia. }
  unfold Z.div, Z.modulo in Hq, Hr.
  destruct (Z.div_eucl (Z.shiftl (Z.pos m) 53) (Z.pos m)) as [q r]. subst q r.
  assert (new_location (Z.pos m) 0 = loc_Exact) as ->.
  { unfold new_location. by destruct (Z.even _). }
  by destruct s.
Qed.

(** A finite double less itself is [+0]. *)
Lemma SFsub_diag s m e :
  SFsub prec emax (S754_finite s m e) (S754_finite s m e) = S754_zero false.
Proof. unfold SFsub. by rewrite Z.sub_diag. Qed.

(** ** Rounding gives a number *)

Lemma iter_shr_1_nonneg n : ∀ mrs,
  0 ≤ shr_m mrs → 0 ≤ shr_m (SpecFloat.iter_pos shr_1 n mrs).
Proof.
  assert (∀ mrs, 0 ≤ shr_m mrs → 0 ≤ shr_m (shr_1 mrs)) as H1.
  { intros [[|[m|m|]|m] r s]; simpl; lia. }
  induction n as [n IH|n IH|]; intros mrs H; simpl; auto.
Qed.

Lemma shr_fexp_nonneg m e l :
  0 ≤ m → 0 ≤ shr_m (fst (shr_fexp prec emax m e l)).
Proof.
  intros Hm. unfold shr_fexp, shr.
  assert (0 ≤ shr_m (shr_record_of_loc m l)) as H0 by (by destruct l as [|[]]).
  destruct (fexp prec emax (Zdigits2 m + e) - e); simpl; [done| |done].
  by apply iter_shr_1_nonneg.
Qed.

Lemma binary_round_aux_number s m e l :
  0 ≤ m → binary_round_aux prec emax s m e l ≠ S754_nan.
Proof.
  intros Hm. unfold binary_round_aux.
  pose proof (shr_fexp_nonneg m e l Hm) as H1.
  destruct (shr_fexp prec emax m e l) as [mrs' e']. simpl in H1.
  assert (0 ≤ round_nearest_even (shr_m mrs') (loc_of_shr_record mrs')) as H2.
  { unfold round_nearest_even.
    destruct (loc_of_shr_record mrs') as [|[]]; try destruct (Z.even _); lia. }
  pose proof (shr_fexp_nonneg _ e' loc_Exact H2) as H3.
  destruct (shr_fexp prec emax _ e' loc_Exact) as [mrs'' e'']. simpl in H3.
  destruct (shr_m mrs'') as [|q|q]; [done| |lia].
  by destruct (e'' <=? emax - prec).
Qed.

Lemma binary_normalize_number m e : binary_normalize prec emax m e false ≠ S754_nan.
Proof.
  unfold binary_normalize, binary_round.
  destruct m as [|m|m]; [done|..];
    destruct (shl_align _ _ _) as [mz ez]; by apply binary_round_aux_number.
Qed.

(** The difference of a number and a finite number is a number. *)
Lemma nsub_number (x y : double) :
  is_finite y = true → ∃ z, nsub (Some x) (Some y) = Some z.
Proof.
  intros Hy. unfold nsub, lift2.
  assert (SFsub prec emax (to_spec x) (to_spec y) ≠ S754_nan) as H.
  { destruct x as [[]|[]|sx mx ex], y as [[]|[]|sy my ey]; try done.
    simpl. apply binary_normalize_number. }
  destruct (SFsub prec emax (to_spec x) (to_spec y)); simpl; by eauto.
Qed.

(** ** The operations on numbers *)

(** Two numbers are ordered one way or the other. *)
Lemma nlt_nle (a b : double) : nlt (Some b) (Some a) = negb (nle (Some a) (Some b)).
Proof.
  unfold nlt, nle, SFltb, SFleb, SFcompare.
  destruct a as [sa|sa|sa ma ea], b as [sb|sb|sb mb eb]; simpl;
    try (by destruct sa); try (by destruct sb); try (by destruct sa, sb).
  destruct sa, sb; try done;
    rewrite (Z.compare_antisym ea eb);
    destruct (ea ?= eb) eqn:He; simpl; try done;
    pose proof (Pos.compare_cont_antisym ma mb Eq) as H; simpl in H; rewrite <- H;
    by destruct (Pos.compare_cont Eq ma mb).
Qed.

Lemma nsub_0 (a : number) : nsub a (num 0) = a.
Proof. by destruct a as [[[]|[]|s m e]|]. Qed.

Lemma nmul_1 (p : double) : canonical p → nmul (Some p) (num 1) = Some p.
Proof.
  destruct p as [[]|[]|s m e]; try done.
  unfold canonical. intros Hb.
  change (of_spec (SFmul prec emax (S754_finite s m e) one) = Some (DFinite s m e)).
  by rewrite (SFmul_1 s m e Hb).
Qed.

Lemma ndiv_diag s m e :
  ndiv (Some (DFinite s m e)) (Some (DFinite s m e)) = num 1.
Proof.
  change (of_spec (SFdiv prec emax (S754_finite s m e) (S754_finite s m e)) = num 1).
  by rewrite SFdiv_diag.
Qed.

Lemma nsub_diag (p : double) : is_finite p = true → nsub (Some p) (Some p) = num 0.
Proof.
  destruct p as [[]|[]|s m e]; try done. intros _.
  change (of_spec (SFsub prec emax (S754_finite s m e) (S754_finite s m e)) = num 0).
  by rewrite SFsub_diag.
Qed.

(** * Properties of [visualTransform] *)

(** ** The guard *)

Lemma noData_false dataViews :
  noData dataViews = Ok false →
  ∃ dvs dv0 c cats cat0 s vals,
    dataViews = Some dvs ∧ dvs !! 0%nat = Some dv0
    ∧ DataView.categorical dv0 = Some c
    ∧ DataViewCategorical.categories c = Some cats
    ∧ cats !! 0%nat = Some cat0
    ∧ DataViewCategoryColumn.source cat0 = Some s
    ∧ DataViewCategorical.values c = Some vals.
Proof.
  unfold noData. intros H.
  destruct dataViews as [dvs|]; [|done].
  destruct (dvs !! 0%nat) as [dv0|] eqn:Hdv0; [|done].
  destruct (DataView.categorical dv0) as [c|] eqn:Hc; [|done].
  destruct (DataViewCategorical.categories c) as [cats|] eqn:Hcats; [|done].
  destruct (cats !! 0%nat) as [cat0|] eqn:Hcat0; simpl in H; [|done].
  destruct (DataViewCategoryColumn.source cat0) as [s|] eqn:Hs; [|done].
  destruct (DataViewCategorical.values c) as [vals|] eqn:Hvals; [|done].
  by exists dvs, dv0, c, cats, cat0, s, vals.
Qed.

(** Past the guard there is a category series. *)
Lemma noData_category_series options :
  noData (VisualUpdateOptions.dataViews options) = Ok false →
  ∃ category, category_series options = Some category.
Proof.
  intros Hg.
  destruct (noData_false _ Hg) as (dvs & dv0 & c & cats & cat0 & s & vals & E1 & E2 & E3 & E4 & E5 & E6 & E7).
  exists cat0. unfold category_series, first_categorical.
  rewrite E1. simpl. rewrite E2. simpl. rewrite E3. simpl. by rewrite E4.
Qed.

(** The guard returns [dataInfo] and leaves the host alone. *)
Lemma visualTransform_noData options host :
  noData (VisualUpdateOptions.dataViews options) = Ok true →
  visualTransform options host = Ok (dataInfo, host).
Proof. intros H. unfold visualTransform. by rewrite H. Qed.

(** Past the guard, with both series there, the loop runs. *)
Lemma visualTransform_valid options host category dataValue :
  noData (VisualUpdateOptions.dataViews options) = Ok false →
  category_series options = Some category →
  value_series options = Some dataValue →
  visualTransform options host =
    let len := Nat.max (length (DataViewCategoryColumn.values category))
                       (length (DataViewValueColumn.values dataValue)) in
    let r := pushDataPoints host category dataValue 0 len (IVisualHost.colorPalette host) in
    Ok ({| BarChartViewModel.dataPoints := fst r;
           BarChartViewModel.dataMax := DataViewValueColumn.maxLocal dataValue |},
        {| IVisualHost.colorPalette := snd r |}).
Proof.
  intros Hg Hc Hv.
  destruct (noData_false _ Hg) as (dvs & dv0 & c & cats & cat0 & s & vals & E1 & E2 & E3 & E4 & E5 & E6 & E7).
  unfold category_series, value_series, first_categorical in Hc, Hv.
  unfold visualTransform. rewrite Hg. simpl.
  rewrite E1 in *. simpl in *. rewrite E2 in *. simpl in *.
  rewrite E3 in *. simpl in *. rewrite E4, E7 in *. simpl in *.
  rewrite Hc, Hv. simpl. unfold Math.max.
  by destruct (pushDataPoints _ _ _ _ _ _).
Qed.

(** A returned view model comes from the guard or from the loop. *)
Lemma visualTransform_Ok options host vm host' :
  visualTransform options host = Ok (vm, host') →
  (noData (VisualUpdateOptions.dataViews options) = Ok true ∧ vm = dataInfo ∧ host' = host)
  ∨ (∃ category dataValue,
       noData (VisualUpdateOptions.dataViews options) = Ok false
       ∧ category_series options = Some category
       ∧ value_series options = Some dataValue).
Proof.
  intros H.
  destruct (noData (VisualUpdateOptions.dataViews options)) as [[|]|e] eqn:Hg.
  - left. rewrite (visualTransform_noData _ _ Hg) in H. by inversion H.
  - right.
    destruct (noData_false _ Hg) as (dvs & dv0 & c & cats & cat0 & s & vals & E1 & E2 & E3 & E4 & E5 & E6 & E7).
    unfold visualTransform in H. rewrite Hg in H. simpl in H.
    unfold category_series, value_series, first_categorical.
    rewrite E1 in *. simpl in *. rewrite E2 in *. simpl in *.
    rewrite E3 in *. simpl in *. rewrite E4, E7 in *. simpl in *.
    rewrite E5 in *. simpl in *.
    destruct (vals !! 0%nat) as [dataValue|]; [|done].
    by exists cat0, dataValue.
  - unfold visualTransform in H. by rewrite Hg in H.
Qed.

(** ** The palette *)

Lemma getColor_spec p key ci p' :
  IColorPalette.getColor p key = (ci, p') →
  IColorPalette.colorPalette p ⊆ IColorPalette.colorPalette p'
  ∧ IColorPalette.colorPalette p' !! String key = Some (IColorInfo.value ci).
Proof.
  unfold IColorPalette.getColor.
  destruct (IColorPalette.colorPalette p !! String key) as [c|] eqn:Hk;
    intros [= <- <-]; simpl.
  - done.
  - split; [by apply insert_subseteq | by rewrite lookup_insert_eq].
Qed.

Lemma getColor_known p key c :
  IColorPalette.colorPalette p !! String key = Some c →
  IColorPalette.getColor p key = ({| IColorInfo.value := c |}, p).
Proof. intros H. unfold IColorPalette.getColor. by rewrite H. Qed.

(** A colour that the palette has given is the colour it answers. *)
Lemma palette_color_known p key c :
  IColorPalette.colorPalette p !! String key = Some c → palette_color p key = c.
Proof. intros H. unfold palette_color. by rewrite (getColor_known _ _ _ H). Qed.

(** ** The loop *)

Section loop.
Context (host : IVisualHost.t).
Context (category : DataViewCategoryColumn.t) (dataValue : DataViewValueColumn.t).

Lemma pushDataPoints_length n : ∀ i p,
  length (fst (pushDataPoints host category dataValue i n p)) = n.
Proof.
  induction n as [|n IH]; intros i p; simpl; [done|].
  destruct (IColorPalette.getColor p _) as [ci p1].
  specialize (IH (S i) p1).
  destruct (pushDataPoints host category dataValue (S i) n p1) as [pts p2].
  simpl in *. by rewrite IH.
Qed.

(** The palette only grows during the loop, and in the end it knows the
    colour of every point. *)
Lemma pushDataPoints_palette n : ∀ i p,
  let r := pushDataPoints host category dataValue i n p in
  IColorPalette.colorPalette p ⊆ IColorPalette.colorPalette (snd r)
  ∧ Forall (λ d, IColorPalette.colorPalette (snd r)
                   !! String (BarChartDataPoint.category d)
                 = Some (BarChartDataPoint.color d)) (fst r).
Proof.
  induction n as [|n IH]; intros i p; simpl; [done|].
  destruct (IColorPalette.getColor p _) as [ci p1] eqn:Hc.
  destruct (getColor_spec _ _ _ _ Hc) as [Hsub Hk].
  specialize (IH (S i) p1). simpl in IH.
  destruct (pushDataPoints host category dataValue (S i) n p1) as [pts p2].
  simpl in *. destruct IH as [Hsub' Hall]. split.
  - by etrans.
  - constructor; [|done]. simpl. by eapply lookup_weaken.
Qed.

(** Point [k] of the loop started at [i] is row [i + k]. *)
Lemma pushDataPoints_lookup n : ∀ i p k,
  (k < n)%nat →
  ∃ d, fst (pushDataPoints host category dataValue i n p) !! k = Some d
       ∧ BarChartDataPoint.category d = DataViewCategoryColumn.values category !! (i + k)%nat
       ∧ BarChartDataPoint.value d = DataViewValueColumn.values dataValue !! (i + k)%nat
       ∧ BarChartDataPoint.selectionID d = handle_of host category (i + k).
Proof.
  induction n as [|n IH]; intros i p k Hk; [lia|]. simpl.
  destruct (IColorPalette.getColor p _) as [ci p1].
  specialize (IH (S i) p1).
  destruct (pushDataPoints host category dataValue (S i) n p1) as [pts p2].
  simpl in *. destruct k as [|k].
  - eexists. split; [done|]. simpl. by rewrite Nat.add_0_r.
  - destruct (IH k ltac:(lia)) as (d & Hd & H1 & H2 & H3).
    exists d. replace (i + S k)%nat with (S i + k)%nat by lia. done.
Qed.

(** A second run, from any palette that has kept what the first run left,
    gives the same categories, values and colours and asks the palette for
    nothing new. *)
Lemma pushDataPoints_again host' n : ∀ i p q,
  IColorPalette.colorPalette (snd (pushDataPoints host category dataValue i n p))
    ⊆ IColorPalette.colorPalette q →
  snd (pushDataPoints host' category dataValue i n q) = q
  ∧ Forall2 same_point (fst (pushDataPoints host category dataValue i n p))
                       (fst (pushDataPoints host' category dataValue i n q)).
Proof.
  induction n as [|n IH]; intros i p q Hsub; simpl; [by split; [|constructor]|].
  simpl in Hsub.
  destruct (IColorPalette.getColor p _) as [ci p1] eqn:Hc.
  destruct (getColor_spec _ _ _ _ Hc) as [_ Hk].
  pose proof (pushDataPoints_palette n (S i) p1) as [Hgrow _].
  specialize (IH (S i) p1 q).
  destruct (pushDataPoints host category dataValue (S i) n p1) as [pts p2].
  simpl in *.
  rewrite (getColor_known q _ (IColorInfo.value ci));
    [|by eapply lookup_weaken; [eapply lookup_weaken|]].
  destruct (IH Hsub) as [Hq Hpts].
  destruct (pushDataPoints host' category dataValue (S i) n q) as [pts' q'].
  simpl in *. split; [done|]. constructor; [|done]. by repeat split.
Qed.

(** The categories and the values of the points are the rows. *)
Lemma pushDataPoints_rows n : ∀ i p,
  let points := fst (pushDataPoints host category dataValue i n p) in
  BarChartDataPoint.category <$> points
  = (λ k, DataViewCategoryColumn.values category !! k) <$> seq i n
  ∧ BarChartDataPoint.value <$> points
    = (λ k, DataViewValueColumn.values dataValue !! k) <$> seq i n.
Proof.
  induction n as [|n IH]; intros i p; [done|].
  cbv zeta. cbn [pushDataPoints seq].
  destruct (IColorPalette.getColor p _) as [ci p1].
  specialize (IH (S i) p1). cbv zeta in IH.
  destruct (pushDataPoints host category dataValue (S i) n p1) as [pts p2].
  cbn [fst] in *. rewrite !fmap_cons. destruct IH as [-> ->]. done.
Qed.

End loop.

(** ** Payloads without data *)

(** What the guard does catch: a missing [dataViews], first data view,
    [categorical] or [categories], and, when the categories array has a
    first series, a missing [source] of that series or a missing [values]. *)
Lemma visualTransform_absent options host :
  VisualUpdateOptions.dataViews options = None
  ∨ (VisualUpdateOptions.dataViews options ≫= (λ dvs, dvs !! 0%nat)) = None
  ∨ first_categorical options = None
  ∨ (first_categorical options ≫= DataViewCategorical.categories) = None
  ∨ (∃ category, category_series options = Some category
       ∧ (DataViewCategoryColumn.source category = None
          ∨ (first_categorical options ≫= DataViewCategorical.values) = None)) →
  visualTransform options host = Ok (dataInfo, host).
Proof.
  intros H. apply visualTransform_noData.
  unfold category_series, first_categorical in H. unfold noData.
  destruct (VisualUpdateOptions.dataViews options) as [dvs|]; simpl in *; [|done].
  destruct (dvs !! 0%nat) as [dv0|]; simpl in *; [|done].
  destruct (DataView.categorical dv0) as [c|]; simpl in *; [|done].
  destruct (DataViewCategorical.categories c) as [cats|]; simpl in *; [|done].
  destruct H as [H|[H|[H|[H|(category & Hc & H)]]]]; try done.
  rewrite Hc. simpl.
  destruct (DataViewCategoryColumn.source category); [|done].
  destruct (DataViewCategorical.values c); [|done].
  by destruct H.
Qed.

(** C1, evaluated where it fails.  The payload [no_values_empty_categories]
    has no value series, and its categories array is there but empty: the
    guard reads [categories[0].source] before it looks at the values, and
    [visualTransform] throws a [TypeError] instead of returning the empty
    view model. *)
Theorem visualTransform_missing_series_throws host :
  (first_categorical no_values_empty_categories ≫= DataViewCategorical.values) = None
  ∧ value_series no_values_empty_categories = None
  ∧ category_series no_values_empty_categories = None
  ∧ noData (VisualUpdateOptions.dataViews no_values_empty_categories) = Throw TypeError
  ∧ visualTransform no_values_empty_categories host = Throw TypeError.
Proof. done. Qed.

(** C10.  Some payload passes the guard of [visualTransform] and then
    faults.  The guard asks whether the values array is there, never
    whether [values[0]] is: with a category series that has a source and an
    empty values array the guard answers "data" and the loop header throws
    a [TypeError].  The guard asks whether the categories array is there
    and then reads [categories[0].source]: with an empty categories array
    the guard itself throws.  Neither payload gets the empty view model. *)
Theorem visualTransform_faults_past_guard :
  (∃ options,
     noData (VisualUpdateOptions.dataViews options) = Ok false
     ∧ ∀ host, visualTransform options host = Throw TypeError)
  ∧ (∀ s labels more_categories showAxis more_views viewport host,
       let options :=
         {| VisualUpdateOptions.dataViews := Some (
              {| DataView.categorical := Some
                   {| DataViewCategorical.categories := Some (
                        {| DataViewCategoryColumn.source := Some s;
                           DataViewCategoryColumn.values := labels |} :: more_categories);
                      DataViewCategorical.values := Some [] |};
                 DataView.objects_dataPoint_showAxis := showAxis |} :: more_views);
            VisualUpdateOptions.viewport := viewport |} in
       noData (VisualUpdateOptions.dataViews options) = Ok false
       ∧ visualTransform options host = Throw TypeError)
  ∧ (∀ values showAxis more_views viewport host,
       let options :=
         {| VisualUpdateOptions.dataViews := Some (
              {| DataView.categorical := Some
                   {| DataViewCategorical.categories := Some [];
                      DataViewCategorical.values := values |};
                 DataView.objects_dataPoint_showAxis := showAxis |} :: more_views);
            VisualUpdateOptions.viewport := viewport |} in
       noData (VisualUpdateOptions.dataViews options) = Throw TypeError
       ∧ visualTransform options host = Throw TypeError).
Proof.
  split; [|split].
  - by exists empty_values.
  - done.
  - done.
Qed.

(** ** Payloads with data *)

(** C2.  For a payload that passes the guard and has its category series
    and its value series, [visualTransform] returns, with as many data
    points as the longer of the two series.  Point [i] has the category
    [category[i]], the value [value[i]], the colour that the host palette
    answers for that category label (the colour the palette had for it
    before the call, if it had one), and the selection handle that the
    host's builder makes for row [i]; the handles of different rows
    differ.  With [N] categories and [N] values there are [N] points. *)
Theorem visualTransform_dataPoints options host category dataValue :
  noData (VisualUpdateOptions.dataViews options) = Ok false →
  category_series options = Some category →
  value_series options = Some dataValue →
  let len := Nat.max (length (DataViewCategoryColumn.values category))
                     (length (DataViewValueColumn.values dataValue)) in
  ∃ vm host',
    visualTransform options host = Ok (vm, host')
    ∧ length (BarChartViewModel.dataPoints vm) = len
    ∧ (∀ i, (i < len)%nat →
         ∃ d, BarChartViewModel.dataPoints vm !! i = Some d
           ∧ BarChartDataPoint.category d = DataViewCategoryColumn.values category !! i
           ∧ BarChartDataPoint.value d = DataViewValueColumn.values dataValue !! i
           ∧ BarChartDataPoint.color d
             = palette_color (IVisualHost.colorPalette host')
                             (DataViewCategoryColumn.values category !! i)
           ∧ (∀ c, IColorPalette.colorPalette (IVisualHost.colorPalette host)
                     !! String (DataViewCategoryColumn.values category !! i) = Some c →
                   BarChartDataPoint.color d = c)
           ∧ BarChartDataPoint.selectionID d = handle_of host category i)
    ∧ (∀ i j, i ≠ j → handle_of host category i ≠ handle_of host category j)
    ∧ (∀ N, length (DataViewCategoryColumn.values category) = N →
            length (DataViewValueColumn.values dataValue) = N →
            length (BarChartViewModel.dataPoints vm) = N).
Proof.
  intros Hg Hc Hv len.
  rewrite (visualTransform_valid _ host _ _ Hg Hc Hv). fold len. cbv zeta.
  pose proof (pushDataPoints_length host category dataValue len 0
                (IVisualHost.colorPalette host)) as Hlen.
  pose proof (pushDataPoints_palette host category dataValue len 0
                (IVisualHost.colorPalette host)) as [Hsub Hknown].
  pose proof (pushDataPoints_lookup host category dataValue len 0
                (IVisualHost.colorPalette host)) as Hrow.
  destruct (pushDataPoints host category dataValue 0 len _) as [pts pal].
  simpl in *. eexists _, _. split; [done|]. simpl.
  split; [done|]. split; [|split].
  - intros i Hi. destruct (Hrow i Hi) as (d & Hd & H1 & H2 & H3).
    exists d. repeat split; try done.
    + symmetry. apply palette_color_known. rewrite <- H1.
      by eapply Forall_lookup_1 in Hknown.
    + intros c Hcol. eapply Forall_lookup_1 in Hknown; [|done]. simpl in Hknown.
      rewrite H1 in Hknown. eapply lookup_weaken in Hcol; [|done]. congruence.
  - intros i j Hij [=]. done.
  - intros N H1 H2. subst len. rewrite Hlen, H1, H2. lia.
Qed.

(** The scenario has three rows and gets three data points. *)
Lemma visualTransform_dataPoints_witness :
  ∃ vm host',
    visualTransform scenario fresh_host = Ok (vm, host')
    ∧ length (BarChartViewModel.dataPoints vm) = 3%nat.
Proof.
  destruct (visualTransform_dataPoints scenario fresh_host quarters amounts)
    as (vm & host' & H & Hlen & _); [reflexivity..|].
  exists vm, host'. split; [exact H | exact Hlen].
Defined.

(** C5.  For a payload that passes the guard, the view model that
    [visualTransform] returns has for [dataMax] the [maxLocal] that the
    host reports for the first value series, as it is; and with a first
    value series there, [visualTransform] does return.  The values of the
    series are not consulted: the statement holds whatever they are. *)
Theorem visualTransform_dataMax options host :
  noData (VisualUpdateOptions.dataViews options) = Ok false →
  (∀ vm host',
     visualTransform options host = Ok (vm, host') →
     ∃ dataValue,
       value_series options = Some dataValue
       ∧ BarChartViewModel.dataMax vm = DataViewValueColumn.maxLocal dataValue)
  ∧ (∀ dataValue,
       value_series options = Some dataValue →
       ∃ vm host',
         visualTransform options host = Ok (vm, host')
         ∧ BarChartViewModel.dataMax vm = DataViewValueColumn.maxLocal dataValue).
Proof.
  intros Hg. split.
  - intros vm host' H.
    destruct (visualTransform_Ok _ _ _ _ H)
      as [(Hg' & _)|(category & dataValue & _ & Hc & Hv)]; [congruence|].
    rewrite (visualTransform_valid _ host _ _ Hg Hc Hv) in H. cbv zeta in H.
    injection H as <- _. by exists dataValue.
  - intros dataValue Hv.
    destruct (noData_category_series _ Hg) as [category Hc].
    rewrite (visualTransform_valid _ host _ _ Hg Hc Hv). cbv zeta.
    by eexists _, _.
Qed.

Lemma visualTransform_dataMax_witness :
  ∃ vm host',
    visualTransform stale_maximum fresh_host = Ok (vm, host')
    ∧ BarChartViewModel.dataMax vm = num 7.
Proof.
  destruct (visualTransform_dataMax stale_maximum fresh_host) as [_ H];
    [reflexivity|].
  destruct (H amounts_max_7) as (vm & host' & Ht & Hmax); [reflexivity|].
  exists vm, host'. split; [exact Ht | exact Hmax].
Defined.

(** C7.  When [visualTransform] has returned for a payload, calling it
    again with the same payload and the host as the first call left it
    (or as it is later, the palette having kept the colours it gave)
    returns data points that are equal one by one in category, value and
    colour. *)
Theorem visualTransform_twice options host vm1 host1 host2 :
  visualTransform options host = Ok (vm1, host1) →
  IColorPalette.colorPalette (IVisualHost.colorPalette host1)
    ⊆ IColorPalette.colorPalette (IVisualHost.colorPalette host2) →
  ∃ vm2 host3,
    visualTransform options host2 = Ok (vm2, host3)
    ∧ Forall2 same_point (BarChartViewModel.dataPoints vm1)
                         (BarChartViewModel.dataPoints vm2).
Proof.
  intros H Hsub.
  destruct (visualTransform_Ok _ _ _ _ H) as [(Hg & -> & ->)|(category & dataValue & Hg & Hc & Hv)].
  - rewrite (visualTransform_noData _ _ Hg). eexists _, _. split; [done|]. constructor.
  - rewrite (visualTransform_valid _ host _ _ Hg Hc Hv) in H. cbv zeta in H.
    injection H as <- <-. simpl in Hsub.
    rewrite (visualTransform_valid _ host2 _ _ Hg Hc Hv). cbv zeta.
    eexists _, _. split; [done|]. simpl.
    by apply pushDataPoints_again.
Qed.

Lemma visualTransform_twice_witness :
  ∃ vm1 host1 vm2 host3,
    visualTransform scenario fresh_host = Ok (vm1, host1)
    ∧ visualTransform scenario host1 = Ok (vm2, host3)
    ∧ Forall2 same_point (BarChartViewModel.dataPoints vm1)
                         (BarChartViewModel.dataPoints vm2).
Proof.
  destruct (visualTransform scenario fresh_host) as [[vm1 host1]|e] eqn:H1;
    [|by vm_compute in H1].
  destruct (visualTransform_twice scenario fresh_host vm1 host1 host1 H1)
    as (vm2 & host3 & H2 & Hsame); [reflexivity|].
  by exists vm1, host1, vm2, host3.
Defined.

(** * Properties of the scales *)

(** ** The value scale *)

(** The linear scale from [[0, m]] to [[p, 0]], for a maximum [m] that is
    a number other than zero, as the doubles compute it: [v] is sent to
    [p * (1 - v / m) + 0 * (v / m)]. *)
Lemma linear_scale (p m : double) (v : number) :
  is_zero m = false →
  d3.scale.linear (num 0, Some m) (Some p, num 0) v
  = nadd (nmul (Some p) (nsub (num 1) (ndiv v (Some m))))
         (nmul (num 0) (ndiv v (Some m))).
Proof.
  intros Hm. unfold d3.scale.linear, d3.interpolateNumber, d3.uninterpolateNumber.
  cbn [fst snd]. rewrite !nsub_0. cbn [falsy]. by rewrite Hm.
Qed.

(** A zero divided by a number other than zero is a zero. *)
Lemma ndiv_zero_l s (m : double) :
  is_zero m = false → ∃ s', ndiv (Some (DZero s)) (Some m) = Some (DZero s').
Proof. destruct m as [sm|sm|sm mm em]; [done|..]; intros _; by eexists. Qed.

(** The scale sends a zero to [p] and [m] to [0]. *)
Lemma linear_scale_ends (p m : double) :
  is_zero m = false →
  (canonical p → p ≠ DZero true →
   ∀ s, d3.scale.linear (num 0, Some m) (Some p, num 0) (Some (DZero s)) = Some p)
  ∧ (is_finite m = true → is_finite p = true →
     d3.scale.linear (num 0, Some m) (Some p, num 0) (Some m) = num 0).
Proof.
  intros Hm. split.
  - intros Hp Hneg s. rewrite linear_scale by done.
    destruct (ndiv_zero_l s m Hm) as [s' ->].
    assert (nsub (num 1) (Some (DZero s')) = num 1) as -> by (by destruct s').
    rewrite (nmul_1 p Hp).
    assert (nmul (num 0) (Some (DZero s')) = Some (DZero s')) as -> by (by destruct s').
    destruct p as [[]|[]|sp mp ep]; try done; by destruct s'.
  - intros Hfm Hfp. rewrite linear_scale by done.
    destruct m as [sm|sm|sm mm em]; try done.
    rewrite ndiv_diag.
    assert (nsub (num 1) (num 1) = num 0) as -> by reflexivity.
    by destruct p as [[]|[]|[] mp ep].
Qed.

(** When the host reports a maximum of zero the scale is flat: every
    finite value is sent to [p]. *)
Lemma linear_scale_flat s (p v : double) :
  canonical p → p ≠ DZero true → is_finite v = true →
  d3.scale.linear (num 0, Some (DZero s)) (Some p, num 0) (Some v) = Some p.
Proof.
  intros Hp Hneg Hv.
  unfold d3.scale.linear, d3.interpolateNumber, d3.uninterpolateNumber.
  cbn [fst snd]. rewrite !nsub_0. cbn [falsy is_zero].
  assert (ndiv (num 1) (Some (DZero s)) = Some (DInfinity s)) as -> by (by destruct s).
  assert (∃ s', ndiv (Some v) (Some (DInfinity s)) = Some (DZero s')) as [s' ->].
  { destruct v as [sv|sv|sv mv ev]; [|done|]; by eexists. }
  assert (nsub (num 1) (Some (DZero s')) = num 1) as -> by (by destruct s').
  rewrite (nmul_1 p Hp).
  assert (nmul (num 0) (Some (DZero s')) = Some (DZero s')) as -> by (by destruct s').
  destruct p as [[]|[]|sp mp ep]; try done; by destruct s'.
Qed.

(** What is not a number stays so through the linear scale. *)
Lemma linear_scale_NaN domain range : d3.scale.linear domain range NaN = NaN.
Proof.
  destruct domain as [a b], range as [r0 r1].
  unfold d3.scale.linear, d3.interpolateNumber, d3.uninterpolateNumber. simpl.
  by destruct r0.
Qed.

(** ** The category scale *)

(** The domain has each key once. *)
Lemma domain_push_NoDup x : ∀ domain,
  NoDup (String <$> domain) → NoDup (String <$> d3.scale.domain_push domain x).
Proof.
  induction x as [|xi x IH]; intros domain Hnd; simpl; [done|].
  case_bool_decide as Hin; apply IH; [done|].
  rewrite fmap_app. apply list.NoDup_app. split; [done|]. split.
  - intros k Hk [->|[]%elem_of_nil]%elem_of_cons. done.
  - apply NoDup_singleton.
Qed.

(** Every value that was given has its key in the domain. *)
Lemma domain_push_keys x : ∀ domain k,
  k ∈ String <$> domain ∨ k ∈ String <$> x →
  k ∈ String <$> d3.scale.domain_push domain x.
Proof.
  induction x as [|xi x IH]; intros domain k Hk; simpl.
  - destruct Hk as [Hk|Hk]; [done|]. by apply elem_of_nil in Hk.
  - case_bool_decide as Hin; apply IH.
    + destruct Hk as [Hk|Hk]; [by left|].
      rewrite fmap_cons in Hk. apply elem_of_cons in Hk as [->|Hk]; [by left|by right].
    + rewrite fmap_app. setoid_rewrite elem_of_app.
      destruct Hk as [Hk|Hk]; [by left; left|].
      rewrite fmap_cons in Hk. apply elem_of_cons in Hk as [->|Hk]; [|by right].
      left; right. simpl. by apply list_elem_of_singleton.
Qed.

(** Labels with pairwise different keys are the domain, as they are. *)
Lemma domain_push_distinct x : ∀ domain,
  NoDup (String <$> (domain ++ x)) → d3.scale.domain_push domain x = domain ++ x.
Proof.
  induction x as [|xi x IH]; intros domain Hnd; simpl; [by rewrite app_nil_r|].
  assert (String xi ∉ String <$> domain) as Hnew.
  { rewrite fmap_app, fmap_cons in Hnd.
    apply list.NoDup_app in Hnd as (_ & Hdis & _).
    intros Hin. apply (Hdis _ Hin). by left. }
  rewrite (bool_decide_eq_false_2 _ Hnew).
  replace (domain ++ xi :: x) with ((domain ++ [xi]) ++ x) in * by by rewrite <- app_assoc.
  by apply IH.
Qed.

(** A label of the domain is found at its position. *)
Lemma index_get_lookup domain : ∀ i label,
  NoDup (String <$> domain) →
  domain !! i = Some label →
  d3.scale.index_get domain (String label) = Some i.
Proof.
  induction domain as [|d domain IH]; intros i label Hnd Hl; [done|].
  rewrite fmap_cons in Hnd. apply list.NoDup_cons in Hnd as [Hd Hnd]. simpl.
  destruct i as [|i]; simpl in Hl.
  - injection Hl as ->. by rewrite bool_decide_eq_true_2.
  - rewrite bool_decide_eq_false_2.
    + by rewrite (IH i label Hnd Hl).
    + intros Heq. apply Hd. rewrite Heq.
      by eapply list_elem_of_fmap_2, list_elem_of_lookup_2.
Qed.

(** A key of the domain is found, at the position of a label with that
    key. *)
Lemma index_get_key domain : ∀ k,
  k ∈ String <$> domain →
  ∃ i label, d3.scale.index_get domain k = Some i
    ∧ domain !! i = Some label ∧ String label = k.
Proof.
  induction domain as [|d domain IH]; intros k Hk; [by apply elem_of_nil in Hk|].
  simpl. case_bool_decide as Hd.
  - by exists 0%nat, d.
  - rewrite fmap_cons in Hk. apply elem_of_cons in Hk as [->|Hk]; [done|].
    destruct (IH k Hk) as (i & label & Hi & Hl & Hs).
    exists (S i), label. by rewrite Hi.
Qed.

Lemma steps_lookup n start step i :
  (i < n)%nat →
  d3.scale.steps n start step !! i = Some (nadd start (nmul step (of_nat i))).
Proof.
  intros Hi. unfold d3.scale.steps.
  rewrite list_lookup_fmap, (proj2 (lookup_seq 0 n i i)); [done|]. by split.
Qed.

Lemma steps_length n start step : length (d3.scale.steps n start step) = n.
Proof. unfold d3.scale.steps. by rewrite length_fmap, length_seq. Qed.

(** The bands of a scale over a width that is not negative: one step from
    one band start to the next, the step being the whole part of the width
    divided by the number of labels less the inner padding plus twice the
    outer padding, and every band as wide as the rounded share of the step
    that the inner padding leaves. *)
Lemma rangeRoundBands_even s width padding outerPadding :
  nlt width (num 0) = false →
  let x := d3.scale.rangeRoundBands s (num 0, width) padding outerPadding in
  let n := of_nat (length (d3.scale.domain s)) in
  let step := Math.floor (ndiv width (nadd (nsub n padding) (nmul (num 2) outerPadding))) in
  let start :=
    nadd (num 0)
      (Math.round (ndiv (nsub width (nmul (nsub n padding) step)) (num 2))) in
  d3.scale.domain x = d3.scale.domain s
  ∧ d3.scale.rangeBand x = Math.round (nmul step (nsub (num 1) padding))
  ∧ ∀ i label,
      NoDup (String <$> d3.scale.domain s) →
      d3.scale.domain s !! i = Some label →
      d3.scale.call x label = nadd start (nmul step (of_nat i)).
Proof.
  intros Hw. cbv zeta. unfold d3.scale.rangeRoundBands. cbn [fst snd].
  rewrite Hw, !nsub_0. cbn [d3.scale.domain d3.scale.rangeBand].
  split; [done|]. split; [done|].
  intros i label Hnd Hl. unfold d3.scale.call. cbn [d3.scale.domain d3.scale.range].
  rewrite (index_get_lookup _ _ _ Hnd Hl), steps_length.
  apply lookup_lt_Some in Hl as Hi.
  rewrite Nat.mod_small by done. by rewrite steps_lookup.
Qed.

(** * Properties of [Visual.update] *)

(** ** The data join *)

Lemma append_data next values :
  Rect.__data__ <$> selection.append next values = values.
Proof.
  unfold selection.append. rewrite fmap_imap.
  rewrite (imap_ext _ (const id)); [|done].
  by rewrite imap_const, list_fmap_id.
Qed.

Lemma append_node next values :
  Rect.node <$> selection.append next values = seq next (length values).
Proof.
  unfold selection.append. rewrite fmap_imap.
  rewrite <- (list_fmap_id (seq next _)). by rewrite <- imap_seq.
Qed.

(** The bars after the join carry the data points, in order. *)
Lemma joined_data old next values :
  Rect.__data__ <$> joined old next values = values.
Proof.
  unfold joined. simpl. rewrite fmap_app, append_data.
  revert values. induction old as [|r old IH]; intros [|d values]; simpl; try done.
  by rewrite IH.
Qed.

(** The surviving nodes come first, then the new ones. *)
Lemma joined_node old next values :
  Rect.node <$> joined old next values
  = (Rect.node <$> take (length values) old)
    ++ seq next (length values - length old).
Proof.
  unfold joined. simpl. rewrite fmap_app, append_node, length_drop. f_equal.
  revert values. induction old as [|r old IH]; intros [|d values]; simpl; try done.
  by rewrite IH.
Qed.

(** A surviving node keeps its attributes. *)
Lemma joined_survivor old next values i r :
  old !! i = Some r → (i < length values)%nat →
  ∃ d, values !! i = Some d ∧ joined old next values !! i = Some (Rect.bind r d).
Proof.
  intros Hr Hi. destruct (lookup_lt_is_Some_2 values i Hi) as [d Hd].
  exists d. split; [done|]. unfold joined. simpl.
  rewrite lookup_app_l.
  - rewrite lookup_zip_with, Hr. simpl. by rewrite Hd.
  - rewrite length_zip_with. apply lookup_lt_Some in Hr. lia.
Qed.

(** ** An update that completes *)

Lemma update_Abrupt this options e :
  visualTransform options (Visual.host this) = Throw e →
  snd (Visual.update this options) = Abrupt e
  ∧ Visual.barContainer (fst (Visual.update this options)) = Visual.barContainer this
  ∧ Visual.created (fst (Visual.update this options)) = Visual.created this.
Proof. intros H. unfold Visual.update. by rewrite H. Qed.

(** What a completed update leaves, field by field. *)
Lemma update_Normal this options this' :
  Visual.update this options = (this', Normal) →
  ∃ vm host',
    visualTransform options (Visual.host this) = Ok (vm, host')
    ∧ let settings := Visual.parseSettings (first_dataView options) in
      let width := IViewport.width (VisualUpdateOptions.viewport options) in
      let height :=
        Visual.plotHeight settings
          (IViewport.height (VisualUpdateOptions.viewport options)) in
      let bars :=
        Visual.bar_attr (Visual.xScale vm width) (Visual.yScale vm height) height
          <$> joined (Visual.barContainer this) (Visual.created this)
                     (BarChartViewModel.dataPoints vm) in
      Visual.settings this' = Some settings
      ∧ Visual.host this' = host'
      ∧ Visual.svg this'
        = <["height" := ANumber (IViewport.height (VisualUpdateOptions.viewport options))]>
            (<["width" := ANumber width]> (Visual.svg this))
      ∧ Axis.style (Visual.xAxis this')
        = <["font-size" := ANumber (Visual.fontSize height width)]>
            (Axis.style (Visual.xAxis this))
      ∧ Axis.attrs (Visual.xAxis this')
        = <["transform" := ATranslate (num 0) height]> (Axis.attrs (Visual.xAxis this))
      ∧ Visual.barContainer this'
        = Rect.on_click {| ClickListener.bars := Rect.node <$> bars |} <$> bars
      ∧ Visual.created this'
        = (Visual.created this
           + (length (BarChartViewModel.dataPoints vm)
              - length (Visual.barContainer this)))%nat.
Proof.
  unfold Visual.update. fold (first_dataView options).
  destruct (visualTransform options (Visual.host this)) as [[vm host']|e]; [|done].
  intros [= <-]. exists vm, host'. split; [done|]. simpl.
  unfold joined, selection.append. simpl.
  by rewrite length_imap, length_drop.
Qed.

(** ** The attributes of a bar *)

Lemma bar_attr_attribute xScale yScale height r :
  let r' := Visual.bar_attr xScale yScale height r in
  let d := Rect.__data__ r in
  attribute r' "width" = Some (ANumber (d3.scale.rangeBand xScale))
  ∧ attribute r' "height"
    = Some (ANumber (nsub height (yScale (BarChartDataPoint.value d))))
  ∧ attribute r' "x"
    = Some (ANumber (d3.scale.call xScale (BarChartDataPoint.category d)))
  ∧ attribute r' "y" = Some (ANumber (yScale (BarChartDataPoint.value d)))
  ∧ attribute r' "fill" = Some (AString (BarChartDataPoint.color d)).
Proof.
  unfold attribute, Visual.bar_attr. simpl.
  repeat split; by simplify_map_eq.
Qed.

(** The bars of a completed update, one by one: bar [i] is bound to data
    point [i], has the attributes of [bars.attr] for it, and its listener
    holds the nodes of all the bars. *)
Lemma update_bar this options this' vm host' :
  Visual.update this options = (this', Normal) →
  visualTransform options (Visual.host this) = Ok (vm, host') →
  Rect.__data__ <$> Visual.barContainer this' = BarChartViewModel.dataPoints vm
  ∧ Rect.node <$> Visual.barContainer this'
    = (Rect.node <$> take (length (BarChartViewModel.dataPoints vm))
                          (Visual.barContainer this))
      ++ seq (Visual.created this)
             (length (BarChartViewModel.dataPoints vm)
              - length (Visual.barContainer this))
  ∧ ∀ r, r ∈ Visual.barContainer this' →
      let settings := Visual.parseSettings (first_dataView options) in
      let width := IViewport.width (VisualUpdateOptions.viewport options) in
      let height :=
        Visual.plotHeight settings
          (IViewport.height (VisualUpdateOptions.viewport options)) in
      let xScale := Visual.xScale vm width in
      let yScale := Visual.yScale vm height in
      let d := Rect.__data__ r in
      attribute r "width" = Some (ANumber (d3.scale.rangeBand xScale))
      ∧ attribute r "height"
        = Some (ANumber (nsub height (yScale (BarChartDataPoint.value d))))
      ∧ attribute r "x"
        = Some (ANumber (d3.scale.call xScale (BarChartDataPoint.category d)))
      ∧ attribute r "y" = Some (ANumber (yScale (BarChartDataPoint.value d)))
      ∧ attribute r "fill" = Some (AString (BarChartDataPoint.color d))
      ∧ Rect.onclick r
        = Some {| ClickListener.bars := Rect.node <$> Visual.barContainer this' |}.
Proof.
  intros Hu Ht.
  destruct (update_Normal _ _ _ Hu) as (vm' & host'' & Ht' & H).
  rewrite Ht in Ht'. injection Ht' as <- <-. cbv zeta in H.
  destruct H as (_ & _ & _ & _ & _ & Hbars & _).
  rewrite Hbars. rewrite <- !list_fmap_compose.
  split; [|split].
  - etrans; [|apply (joined_data (Visual.barContainer this) (Visual.created this))].
    by apply list_fmap_ext.
  - etrans; [|apply joined_node]. by apply list_fmap_ext.
  - intros r [r0 [-> Hr0]]%list_elem_of_fmap. simpl.
    pose proof (bar_attr_attribute
      (Visual.xScale vm (IViewport.width (VisualUpdateOptions.viewport options)))
      (Visual.yScale vm (Visual.plotHeight (Visual.parseSettings (first_dataView options))
         (IViewport.height (VisualUpdateOptions.viewport options))))
      (Visual.plotHeight (Visual.parseSettings (first_dataView options))
         (IViewport.height (VisualUpdateOptions.viewport options))) r0) as Ha.
    cbv zeta in Ha. destruct Ha as (H1 & H2 & H3 & H4 & H5).
    by repeat split.
Qed.

(** X12.  A bar that survives an update keeps its node and its opacity:
    an update does not undo the dimming of an earlier selection. *)
Lemma update_keeps_opacity this options this' i r :
  Visual.update this options = (this', Normal) →
  Visual.barContainer this !! i = Some r →
  (i < length (Visual.barContainer this'))%nat →
  ∃ r', Visual.barContainer this' !! i = Some r'
    ∧ Rect.node r' = Rect.node r
    ∧ attribute r' "fill-opacity" = attribute r "fill-opacity".
Proof.
  intros Hu Hr Hi.
  destruct (update_Normal _ _ _ Hu) as (vm & host' & Ht & H). cbv zeta in H.
  destruct H as (_ & _ & _ & _ & _ & Hbars & _).
  destruct (update_bar _ _ _ _ _ Hu Ht) as (Hdata & _ & _).
  rewrite <- (length_fmap Rect.__data__), Hdata in Hi.
  destruct (joined_survivor _ (Visual.created this) _ _ _ Hr Hi) as (d & _ & Hj).
  rewrite Hbars, !list_lookup_fmap, Hj. simpl.
  eexists. split; [done|]. split; [done|].
  unfold attribute, Visual.bar_attr. simpl. by simplify_map_eq.
Qed.

(** ** The plotting height *)

(** C3.  After an update with viewport height [H], the plotting height is
    [H - 25] when [settings.dataPoint.showAxis] is true and [H] when it is
    false: the axis group is translated to it, and the [y] and [height] of
    every bar come from the value scale whose range starts at it. *)
Theorem update_plotHeight this options this' :
  Visual.update this options = (this', Normal) →
  ∃ settings vm host',
    Visual.settings this' = Some settings
    ∧ visualTransform options (Visual.host this) = Ok (vm, host')
    ∧ let H := IViewport.height (VisualUpdateOptions.viewport options) in
      let P :=
        if dataPointSettings.showAxis (VisualSettings.dataPoint settings)
        then nsub H (num 25) else H in
      let yScale :=
        d3.scale.linear (num 0, BarChartViewModel.dataMax vm) (P, num 0) in
      Axis.attrs (Visual.xAxis this') !! "transform" = Some (ATranslate (num 0) P)
      ∧ ∀ r, r ∈ Visual.barContainer this' →
          attribute r "y"
          = Some (ANumber (yScale (BarChartDataPoint.value (Rect.__data__ r))))
          ∧ attribute r "height"
            = Some (ANumber (nsub P (yScale (BarChartDataPoint.value (Rect.__data__ r))))).
Proof.
  intros Hu.
  destruct (update_Normal _ _ _ Hu) as (vm & host' & Ht & H). cbv zeta in H.
  destruct H as (Hs & _ & _ & _ & Ha & _ & _).
  destruct (update_bar _ _ _ _ _ Hu Ht) as (_ & _ & Hbar).
  eexists _, vm, host'. split; [exact Hs|]. split; [done|]. cbv zeta. split.
  - rewrite Ha. by rewrite lookup_insert_eq.
  - intros r Hr. destruct (Hbar r Hr) as (_ & Hh & _ & Hy & _). by split.
Qed.

Lemma update_plotHeight_witness :
  ∃ this',
    Visual.update (Visual.constructor fresh_host) axis_200_100 = (this', Normal)
    ∧ Axis.attrs (Visual.xAxis this') !! "transform"
      = Some (ATranslate (num 0) (num 75)).
Proof.
  exists (fst (Visual.update (Visual.constructor fresh_host) axis_200_100)).
  destruct (update_plotHeight (Visual.constructor fresh_host) axis_200_100
              (fst (Visual.update (Visual.constructor fresh_host) axis_200_100)))
    as (settings & vm & host' & Hs & _ & Ha & _); [reflexivity|].
  split; [reflexivity|].
  injection Hs as <-. exact Ha.
Defined.

(** ** The font size of the axis labels *)

Lemma d3_min_pair (a b : double) : d3.min [Some a; Some b] = Some (smaller a b).
Proof.
  unfold d3.min, smaller. cbn [fold_left NaN]. rewrite nlt_nle.
  by destruct (nle (Some a) (Some b)).
Qed.

(** C8, as stated, fails.  With the axis shown, viewport 200 x 100: the
    font size is 0.04 times 75, the plotting height, not 0.04 times 100,
    the viewport height. *)
Lemma update_fontSize_of_viewport_fails :
  ¬ fontSize_of_viewport (Visual.constructor fresh_host) axis_200_100.
Proof.
  intros H.
  specialize (H (fst (Visual.update (Visual.constructor fresh_host) axis_200_100))
                (double_of_Z 200) (double_of_Z 100) eq_refl eq_refl eq_refl).
  vm_compute in H. discriminate H.
Qed.

(** C8, amended.  After an update that completes, the font size of the
    axis labels is 0.04 times the smaller of the plotting height and the
    viewport width, the plotting height being the viewport height less 25
    when the axis is shown; without the axis it is 0.04 times the smaller
    of the viewport height and width. *)
Theorem update_fontSize this options this' w h :
  Visual.update this options = (this', Normal) →
  IViewport.width (VisualUpdateOptions.viewport options) = Some w →
  IViewport.height (VisualUpdateOptions.viewport options) = Some h →
  ∃ settings p,
    Visual.settings this' = Some settings
    ∧ (if dataPointSettings.showAxis (VisualSettings.dataPoint settings)
       then nsub (Some h) (num 25) else Some h) = Some p
    ∧ Axis.style (Visual.xAxis this') !! "font-size"
      = Some (ANumber (nmul (Some (smaller p w)) (dec 4 100))).
Proof.
  intros Hu Hw Hh.
  destruct (update_Normal _ _ _ Hu) as (vm & host' & Ht & H). cbv zeta in H.
  destruct H as (Hs & _ & _ & Hf & _).
  assert (∃ p, Visual.plotHeight (Visual.parseSettings (first_dataView options)) (Some h)
               = Some p) as [p Hp].
  { unfold Visual.plotHeight. destruct (dataPointSettings.showAxis _); [|by eexists].
    by apply nsub_number. }
  eexists _, p. split; [exact Hs|]. split; [exact Hp|].
  rewrite Hf, lookup_insert_eq. do 2 f_equal.
  unfold Visual.fontSize. by rewrite Hh, Hp, Hw, d3_min_pair.
Qed.

Lemma update_fontSize_witness :
  ∃ this',
    Visual.update (Visual.constructor fresh_host) axis_200_100 = (this', Normal)
    ∧ Axis.style (Visual.xAxis this') !! "font-size" = Some (ANumber (num 3)).
Proof.
  exists (fst (Visual.update (Visual.constructor fresh_host) axis_200_100)).
  destruct (update_fontSize (Visual.constructor fresh_host) axis_200_100
              (fst (Visual.update (Visual.constructor fresh_host) axis_200_100))
              (double_of_Z 200) (double_of_Z 100))
    as (settings & p & Hs & Hp & Hf); [reflexivity..|].
  split; [reflexivity|].
  injection Hs as <-. vm_compute in Hp. injection Hp as <-. rewrite Hf. by_computation.
Defined.

(** ** The number of bars *)

(** C9.  After an update that completes, the bar container holds as many
    bars as the view model of that update has data points: the nodes that
    were there are kept up to that number, in order, and new nodes are
    created for the rows beyond them.  An update whose payload has no
    categorical data view completes and leaves no bar. *)
Theorem update_bar_count this options this' :
  Visual.update this options = (this', Normal) →
  (∃ vm host',
     visualTransform options (Visual.host this) = Ok (vm, host')
     ∧ length (Visual.barContainer this') = length (BarChartViewModel.dataPoints vm)
     ∧ Rect.node <$> Visual.barContainer this'
       = (Rect.node <$> take (length (BarChartViewModel.dataPoints vm))
                             (Visual.barContainer this))
         ++ seq (Visual.created this)
                (length (BarChartViewModel.dataPoints vm)
                 - length (Visual.barContainer this)))
  ∧ (∀ this0 options0,
       first_categorical options0 = None →
       snd (Visual.update this0 options0) = Normal
       ∧ Visual.barContainer (fst (Visual.update this0 options0)) = []).
Proof.
  intros Hu. split.
  - destruct (update_Normal _ _ _ Hu) as (vm & host' & Ht & _).
    destruct (update_bar _ _ _ _ _ Hu Ht) as (Hd & Hn & _).
    exists vm, host'. split; [done|]. split; [|done].
    by rewrite <- Hd, length_fmap.
  - intros this0 options0 Hc.
    assert (visualTransform options0 (Visual.host this0) = Ok (dataInfo, Visual.host this0)) as Ht.
    { apply visualTransform_absent. unfold first_categorical in *.
      destruct (VisualUpdateOptions.dataViews options0) as [dvs|]; [|by left].
      simpl in *. destruct (dvs !! 0%nat) as [dv0|]; [|by right; left].
      by right; right; left. }
    unfold Visual.update. rewrite Ht. simpl. split; [done|].
    by destruct (Visual.barContainer this0).
Qed.

Lemma update_bar_count_witness :
  ∃ this',
    Visual.update (Visual.constructor fresh_host) scenario = (this', Normal)
    ∧ length (Visual.barContainer this') = 3%nat.
Proof.
  exists (fst (Visual.update (Visual.constructor fresh_host) scenario)).
  destruct (update_bar_count (Visual.constructor fresh_host) scenario
              (fst (Visual.update (Visual.constructor fresh_host) scenario)))
    as [(vm & host' & Ht & Hlen & _) _]; [reflexivity|].
  split; [reflexivity|].
  rewrite Hlen.
  change (visualTransform scenario fresh_host = Ok (vm, host')) in Ht.
  vm_compute in Ht. injection Ht as <- _. reflexivity.
Defined.

(** ** The nodes of the bars *)

Lemma distinct_nodes_constructor host : distinct_nodes (Visual.constructor host).
Proof. split; simpl; constructor. Qed.

Lemma distinct_nodes_update this options :
  distinct_nodes this → distinct_nodes (fst (Visual.update this options)).
Proof.
  intros [Hnd Hlt].
  destruct (Visual.update this options) as [this' [|e]] eqn:Hu; simpl.
  - destruct (update_Normal _ _ _ Hu) as (vm & host' & Ht & H). cbv zeta in H.
    destruct H as (_ & _ & _ & _ & _ & _ & Hcreated).
    destruct (update_bar _ _ _ _ _ Hu Ht) as (_ & Hnodes & _).
    apply (Forall_fmap Rect.node (λ n, (n < Visual.created this)%nat)) in Hlt.
    unfold distinct_nodes.
    rewrite <- (Forall_fmap Rect.node (λ n, (n < Visual.created this')%nat)).
    rewrite Hnodes, Hcreated, fmap_take. split.
    + apply list.NoDup_app. split; [|split].
      * eapply sublist_NoDup; [exact Hnd | apply sublist_take].
      * intros x [j [Hj _]]%elem_of_take [Hx _]%elem_of_seq.
        eapply Forall_lookup_1 in Hlt; [|exact Hj]. simpl in Hlt. lia.
      * apply NoDup_seq.
    + apply Forall_app. split.
      * apply Forall_take. eapply Forall_impl; [|exact Hlt]. simpl. lia.
      * apply Forall_seq. lia.
  - unfold Visual.update in Hu.
    destruct (visualTransform options (Visual.host this)) as [[vm host']|e']; [done|].
    injection Hu as <- _. done.
Qed.

Lemma resolved_node p ids this :
  Rect.node <$> Visual.barContainer (Visual.resolved p ids this)
  = Rect.node <$> Visual.barContainer this.
Proof.
  simpl. rewrite <- !list_fmap_compose. apply list_fmap_ext. intros _ r _. simpl.
  by repeat case_bool_decide.
Qed.

Lemma distinct_nodes_resolved p ids this :
  distinct_nodes this → distinct_nodes (Visual.resolved p ids this).
Proof.
  intros [Hnd Hlt]. split.
  - by rewrite resolved_node.
  - apply (Forall_fmap Rect.node (λ n, (n < Visual.created this)%nat)).
    rewrite resolved_node. by apply Forall_fmap.
Qed.

(** Whatever the host has done with the visual, its bars are different
    nodes. *)
Lemma reachable_distinct_nodes this : reachable this → distinct_nodes this.
Proof.
  induction 1 as [host|this options _ IH|this p ids _ IH].
  - apply distinct_nodes_constructor.
  - by apply distinct_nodes_update.
  - by apply distinct_nodes_resolved.
Qed.

(** ** Clicking a bar *)

(** The listener finds the clicked bar by its node. *)
Lemma click_bar this i r l :
  NoDup (Rect.node <$> Visual.barContainer this) →
  Visual.barContainer this !! i = Some r →
  Rect.onclick r = Some l →
  Visual.click this (Rect.node r)
  = Some {| Visual.request := BarChartDataPoint.selectionID (Rect.__data__ r);
            Visual.bars := ClickListener.bars l;
            Visual.clicked := Rect.node r |}.
Proof.
  intros Hnd Hr Hl. unfold Visual.click.
  assert (list_find (λ r0, Rect.node r0 = Rect.node r) (Visual.barContainer this)
          = Some (i, r)) as ->.
  { apply list_find_Some. split; [done|]. split; [done|].
    intros j y Hy Hji Heq.
    assert (i = j); [|lia].
    eapply NoDup_lookup; [exact Hnd| |]; rewrite list_lookup_fmap.
    - by rewrite Hr.
    - rewrite Hy. simpl. by rewrite Heq. }
  simpl. by rewrite Hl.
Qed.

(** The bars after the continuation, one by one. *)
Lemma resolved_opacity p ids this j r :
  Visual.barContainer this !! j = Some r →
  Rect.node r ∈ Visual.bars p →
  ∃ r', Visual.barContainer (Visual.resolved p ids this) !! j = Some r'
    ∧ attribute r' "fill-opacity"
      = Some (ANumber (if bool_decide (Rect.node r = Visual.clicked p) then num 1
                       else match ids with [] => num 1 | _ => dec 1 2 end)).
Proof.
  intros Hr Hin. simpl. rewrite !list_lookup_fmap, Hr. simpl.
  eexists. split; [done|].
  rewrite (bool_decide_eq_true_2 _ Hin). unfold attribute.
  case_bool_decide as Hc; simpl in *; rewrite lookup_insert_eq.
  - by rewrite (bool_decide_eq_true_2 _ Hc).
  - rewrite (bool_decide_eq_false_2 _ Hc). by destruct ids.
Qed.

(** The state [dimmed] is one the host can bring about, and two of its
    bars are dimmed. *)
Lemma dimmed_reachable :
  reachable dimmed
  ∧ opacities rendered = [None; None; None]
  ∧ opacities dimmed
    = [Some (ANumber (num 1)); Some (ANumber (dec 1 2)); Some (ANumber (dec 1 2))].
Proof.
  split; [|split].
  - unfold dimmed. destruct (Visual.click rendered 0) as [p|].
    + apply reachable_resolved, reachable_update, reachable_constructor.
    + apply reachable_update, reachable_constructor.
  - by_computation.
  - by_computation.
Qed.

(** C6, as stated, fails in its last part.  In the state [dimmed] the first
    bar is clicked again and the toggle comes back with no active
    selection: the continuation is not a no-op, it sets the opacity of the
    two dimmed bars back to 1. *)
Lemma empty_selection_is_noop_fails : ¬ empty_selection_is_noop dimmed 0.
Proof.
  intros H.
  destruct (Visual.click dimmed 0) as [p|] eqn:Hp; [|by vm_compute in Hp].
  specialize (H p Hp).
  apply (f_equal opacities) in H.
  vm_compute in Hp. injection Hp as <-.
  vm_compute in H. discriminate H.
Qed.

(** C6, amended.  After an update of a visual whose bars are different
    nodes (as they are in every reachable state, see
    [reachable_distinct_nodes]), a click on a bar asks the selection
    manager to toggle the selection handle of that bar.  When the
    continuation of the toggle runs on the bars of that update: if the
    active selection is not empty, the clicked bar has opacity 1 and every
    other bar has opacity 0.5; if it is empty, every bar has opacity 1, a
    bar that an earlier selection had dimmed included. *)
Theorem click_toggles_and_dims this options this' i r :
  distinct_nodes this →
  Visual.update this options = (this', Normal) →
  Visual.barContainer this' !! i = Some r →
  ∃ p,
    Visual.click this' (Rect.node r) = Some p
    ∧ Visual.request p = BarChartDataPoint.selectionID (Rect.__data__ r)
    ∧ ∀ ids,
        let this'' := Visual.resolved p ids this' in
        Rect.node <$> Visual.barContainer this'' = Rect.node <$> Visual.barContainer this'
        ∧ ∀ j r'',
            Visual.barContainer this'' !! j = Some r'' →
            attribute r'' "fill-opacity"
            = Some (ANumber (match ids with
                             | [] => num 1
                             | _ => if bool_decide (j = i) then num 1 else dec 1 2
                             end)).
Proof.
  intros Hd Hu Hr.
  pose proof (distinct_nodes_update this options Hd) as [Hnd _].
  rewrite Hu in Hnd. simpl in Hnd.
  destruct (update_Normal _ _ _ Hu) as (vm & host' & Ht & _).
  destruct (update_bar _ _ _ _ _ Hu Ht) as (_ & _ & Hbar).
  destruct (Hbar r) as (_ & _ & _ & _ & _ & Hl);
    [by eapply list_elem_of_lookup_2|].
  set (p := {| Visual.request := BarChartDataPoint.selectionID (Rect.__data__ r);
               Visual.bars := Rect.node <$> Visual.barContainer this';
               Visual.clicked := Rect.node r |}).
  exists p. split; [by rewrite (click_bar this' i r _ Hnd Hr Hl)|]. split; [done|].
  intros ids. cbv zeta. split; [apply resolved_node|].
  intros j r'' Hr''.
  assert (∃ rj, Visual.barContainer this' !! j = Some rj) as [rj Hrj].
  { apply lookup_lt_is_Some_2. apply lookup_lt_Some in Hr''.
    rewrite <- (length_fmap Rect.node), resolved_node, length_fmap in Hr''. done. }
  destruct (resolved_opacity p ids this' j rj Hrj) as (r1 & Hr1 & Hop).
  { simpl. by eapply list_elem_of_fmap_2, list_elem_of_lookup_2. }
  rewrite Hr1 in Hr''. injection Hr'' as <-. rewrite Hop. simpl.
  do 2 f_equal.
  assert (Rect.node rj = Rect.node r ↔ j = i) as Hiff.
  { split.
    - intros Hn. eapply NoDup_lookup; [exact Hnd| |]; rewrite list_lookup_fmap.
      + rewrite Hrj. simpl. by rewrite Hn.
      + by rewrite Hr.
    - intros ->. rewrite Hr in Hrj. by injection Hrj as <-. }
  destruct (decide (Rect.node rj = Rect.node r)) as [Hn|Hn].
  - rewrite (bool_decide_eq_true_2 _ Hn).
    rewrite (bool_decide_eq_true_2 (j = i)); [by destruct ids | by apply Hiff].
  - rewrite (bool_decide_eq_false_2 _ Hn).
    rewrite (bool_decide_eq_false_2 (j = i)); [done | by rewrite <- Hiff].
Qed.

Lemma click_toggles_and_dims_witness :
  ∃ p,
    Visual.click rendered 0 = Some p
    ∧ opacities (Visual.resolved p [Visual.request p] rendered)
      = [Some (ANumber (num 1)); Some (ANumber (dec 1 2)); Some (ANumber (dec 1 2))].
Proof.
  destruct (Visual.barContainer rendered !! 0%nat) as [r|] eqn:Hr;
    [|by vm_compute in Hr].
  destruct (click_toggles_and_dims (Visual.constructor fresh_host) scenario rendered 0 r)
    as (p & Hp & _ & _); [apply distinct_nodes_constructor|reflexivity|exact Hr|].
  vm_compute in Hr. injection Hr as <-.
  exists p. split; [exact Hp|].
  vm_compute in Hp. injection Hp as <-. by_computation.
Defined.

(** * The bars of an update *)

(** The scenario, from any state of the visual: the update completes and
    the view model has the three rows. *)
Lemma update_scenario this :
  ∃ vm host',
    visualTransform scenario (Visual.host this) = Ok (vm, host')
    ∧ snd (Visual.update this scenario) = Normal
    ∧ BarChartDataPoint.category <$> BarChartViewModel.dataPoints vm
      = [Some "Q1"; Some "Q2"; Some "Q3"]
    ∧ BarChartDataPoint.value <$> BarChartViewModel.dataPoints vm
      = [num 10; num 20; num 5]
    ∧ BarChartViewModel.dataMax vm = num 20.
Proof.
  pose proof (visualTransform_valid scenario (Visual.host this) quarters amounts
                eq_refl eq_refl eq_refl) as Ht.
  cbv zeta in Ht.
  change (Nat.max _ _) with 3%nat in Ht.
  pose proof (pushDataPoints_rows (Visual.host this) quarters amounts 3 0
                (IVisualHost.colorPalette (Visual.host this))) as [Hc Hv].
  eexists _, _. split; [exact Ht|].
  split; [unfold Visual.update; by rewrite Ht|].
  cbn [BarChartViewModel.dataPoints BarChartViewModel.dataMax].
  by rewrite Hc, Hv.
Qed.

(** C4.  After an update, with [P] the plotting height and [W] the
    viewport width:
    - the value scale is the linear scale from [[0, dataMax]] to [[P, 0]]:
      for a [dataMax] other than zero it sends [v] to
      [P * (1 - v / dataMax) + 0 * (v / dataMax)], [0] to [P] and
      [dataMax] to [0];
    - the category scale is the ordinal scale of the category labels in
      their order, each key once, with rounded bands over [[0, W]], inner
      padding 0.1 and outer padding 0.2: the band starts are one step
      apart, all bands have the same width, and the category of every data
      point has its band;
    - bar [i] is bound to data point [i]; its width is the band width, its
      height [P - valueScale(value)], its x the band start of its category,
      its y [valueScale(value)] and its fill the colour of the point.
    The sums, products and quotients are those of the doubles.  In the
    scenario (viewport 400 x 300, no axis, Q1, Q2, Q3 with 10, 20, 5,
    [dataMax] 20) three bars are rendered, of heights 150, 300 and 75. *)
Theorem update_scales_and_bars this options this' :
  Visual.update this options = (this', Normal) →
  ∃ settings vm host',
    Visual.settings this' = Some settings
    ∧ visualTransform options (Visual.host this) = Ok (vm, host')
    ∧ let W := IViewport.width (VisualUpdateOptions.viewport options) in
      let P :=
        Visual.plotHeight settings
          (IViewport.height (VisualUpdateOptions.viewport options)) in
      let labels := BarChartDataPoint.category <$> BarChartViewModel.dataPoints vm in
      let valueScale :=
        d3.scale.linear (num 0, BarChartViewModel.dataMax vm) (P, num 0) in
      let categoryScale :=
        d3.scale.rangeRoundBands (d3.scale.set_domain d3.scale.ordinal_new labels)
          (num 0, W) (dec 1 10) (dec 2 10) in
      (∀ p m : double,
         P = Some p → BarChartViewModel.dataMax vm = Some m → is_zero m = false →
         (∀ v, valueScale v
               = nadd (nmul P (nsub (num 1) (ndiv v (Some m))))
                      (nmul (num 0) (ndiv v (Some m))))
         ∧ (canonical p → p ≠ DZero true → valueScale (num 0) = Some p)
         ∧ (is_finite m = true → is_finite p = true → valueScale (Some m) = num 0))
      ∧ NoDup (String <$> d3.scale.domain categoryScale)
      ∧ (NoDup (String <$> labels) → d3.scale.domain categoryScale = labels)
      ∧ (∀ d, d ∈ BarChartViewModel.dataPoints vm →
           ∃ i label,
             d3.scale.domain categoryScale !! i = Some label
             ∧ String label = String (BarChartDataPoint.category d)
             ∧ d3.scale.call categoryScale (BarChartDataPoint.category d)
               = d3.scale.call categoryScale label)
      ∧ (nlt W (num 0) = false →
           let n := of_nat (length (d3.scale.domain categoryScale)) in
           let step :=
             Math.floor (ndiv W (nadd (nsub n (dec 1 10)) (nmul (num 2) (dec 2 10)))) in
           d3.scale.rangeBand categoryScale
           = Math.round (nmul step (nsub (num 1) (dec 1 10)))
           ∧ ∃ start,
               ∀ i label,
                 d3.scale.domain categoryScale !! i = Some label →
                 d3.scale.call categoryScale label = nadd start (nmul step (of_nat i)))
      ∧ (∀ i r,
           Visual.barContainer this' !! i = Some r →
           ∃ d,
             BarChartViewModel.dataPoints vm !! i = Some d
             ∧ Rect.__data__ r = d
             ∧ attribute r "width" = Some (ANumber (d3.scale.rangeBand categoryScale))
             ∧ attribute r "height"
               = Some (ANumber (nsub P (valueScale (BarChartDataPoint.value d))))
             ∧ attribute r "x"
               = Some (ANumber (d3.scale.call categoryScale (BarChartDataPoint.category d)))
             ∧ attribute r "y" = Some (ANumber (valueScale (BarChartDataPoint.value d)))
             ∧ attribute r "fill" = Some (AString (BarChartDataPoint.color d)))
      ∧ (∀ this0,
           snd (Visual.update this0 scenario) = Normal
           ∧ (λ r, attribute r "height")
               <$> Visual.barContainer (fst (Visual.update this0 scenario))
             = [Some (ANumber (num 150)); Some (ANumber (num 300));
                Some (ANumber (num 75))]).
Proof.
  intros Hu.
  destruct (update_Normal _ _ _ Hu) as (vm & host' & Ht & H). cbv zeta in H.
  destruct H as (Hs & _).
  destruct (update_bar _ _ _ _ _ Hu Ht) as (Hdata & _ & Hbar).
  eexists _, vm, host'. split; [exact Hs|]. split; [exact Ht|]. cbv zeta.
  assert (NoDup (String <$> d3.scale.domain_push []
            (BarChartDataPoint.category <$> BarChartViewModel.dataPoints vm))) as Hnd.
  { apply domain_push_NoDup. constructor. }
  split; [|split; [|split; [|split; [|split; [|split]]]]].
  - intros p m -> -> Hm.
    destruct (linear_scale_ends p m Hm) as [H0 H1].
    split; [intros v; by apply linear_scale|]. split; [|done].
    intros Hp Hneg. by apply (H0 Hp Hneg false).
  - done.
  - intros Hl. simpl. by apply (domain_push_distinct _ []).
  - intros d Hd.
    destruct (index_get_key
                (d3.scale.domain_push []
                   (BarChartDataPoint.category <$> BarChartViewModel.dataPoints vm))
                (String (BarChartDataPoint.category d))) as (i & label & Hi & Hl & Hk).
    { apply domain_push_keys. right. by apply list_elem_of_fmap_2, list_elem_of_fmap_2. }
    exists i, label. split; [done|]. split; [done|].
    unfold d3.scale.call. by rewrite Hk.
  - intros Hw.
    pose proof (rangeRoundBands_even
      (d3.scale.set_domain d3.scale.ordinal_new
         (BarChartDataPoint.category <$> BarChartViewModel.dataPoints vm))
      _ (dec 1 10) (dec 2 10) Hw) as (_ & Hband & Hcall).
    cbv zeta. split; [exact Hband|].
    eexists. intros i label Hl. by apply Hcall.
  - intros i r Hr. exists (Rect.__data__ r).
    destruct (Hbar r) as (H1 & H2 & H3 & H4 & H5 & _); [by eapply list_elem_of_lookup_2|].
    split; [|done].
    by rewrite <- Hdata, list_lookup_fmap, Hr.
  - intros this0.
    destruct (update_scenario this0) as (vm0 & host0 & Ht0 & Hn0 & _ & Hv0 & Hm0).
    split; [done|].
    destruct (Visual.update this0 scenario) as [this1 c1] eqn:Hu0.
    cbn [fst snd] in *. subst c1.
    destruct (update_bar _ _ _ _ _ Hu0 Ht0) as (Hdata0 & _ & Hbar0).
    etrans.
    { apply (list_fmap_ext _
        (λ r, Some (ANumber (nsub (num 300)
           (d3.scale.linear (num 0, num 20) (num 300, num 0)
              (BarChartDataPoint.value (Rect.__data__ r))))))).
      intros j r Hr.
      destruct (Hbar0 r) as (_ & H2 & _); [by eapply list_elem_of_lookup_2|].
      rewrite H2. unfold Visual.yScale. by rewrite Hm0. }
    rewrite (list_fmap_compose Rect.__data__
      (λ d, Some (ANumber (nsub (num 300)
         (d3.scale.linear (num 0, num 20) (num 300, num 0) (BarChartDataPoint.value d)))))).
    rewrite Hdata0.
    rewrite (list_fmap_compose BarChartDataPoint.value
      (λ v, Some (ANumber (nsub (num 300)
         (d3.scale.linear (num 0, num 20) (num 300, num 0) v))))).
    rewrite Hv0. by_computation.
Qed.

(** Five labels over a width of 212: the divisor [5 - 0.1 + 2 * 0.2] is
    the double above 5.3, the quotient is below 40 and the step is 39; the
    bands are 35 wide and start at 10, 49, 88, 127 and 166. *)
Lemma update_scales_and_bars_witness :
  snd (Visual.update (Visual.constructor fresh_host) five_labels) = Normal
  ∧ (λ r, (attribute r "x", attribute r "width"))
      <$> Visual.barContainer (fst (Visual.update (Visual.constructor fresh_host) five_labels))
    = [ (Some (ANumber (num 10)), Some (ANumber (num 35)));
        (Some (ANumber (num 49)), Some (ANumber (num 35)));
        (Some (ANumber (num 88)), Some (ANumber (num 35)));
        (Some (ANumber (num 127)), Some (ANumber (num 35)));
        (Some (ANumber (num 166)), Some (ANumber (num 35))) ].
Proof.
  split; [reflexivity|].
  destruct (Visual.update (Visual.constructor fresh_host) five_labels)
    as [this' c] eqn:Hu.
  assert (c = Normal) as -> by (by vm_compute in Hu; injection Hu as _ <-).
  destruct (update_scales_and_bars _ _ _ Hu)
    as (settings & vm & host' & Hs & Ht & _ & _ & _ & _ & _ & Hbar & _).
  cbn [fst]. apply list_eq. intros i. rewrite list_lookup_fmap.
  destruct (Visual.barContainer this' !! i) as [r|] eqn:Hr.
  - destruct (Hbar i r Hr) as (d & Hd & _ & Hw & _ & Hx & _).
    simpl. rewrite Hw, Hx.
    assert (settings = {| VisualSettings.dataPoint :=
                            {| dataPointSettings.showAxis := false |} |}) as ->.
    { vm_compute in Hu. injection Hu as <-. by injection Hs as <-. }
    change (visualTransform five_labels fresh_host = Ok (vm, host')) in Ht.
    vm_compute in Ht. injection Ht as <- _.
    do 5 (destruct i as [|i]; [injection Hd as <-; by_computation|]).
    done.
  - vm_compute in Hu. injection Hu as <-.
    do 5 (destruct i as [|i]; [done|]). done.
Defined.

(** * Further properties of [visualTransform] *)

(** ** The three outcomes *)

(** X1.  The guard takes its early return exactly when [dataViews], the
    first data view, its [categorical] or the [categories] of that is
    missing, or [categories[0]] is there and either has no [source] or the
    [values] are missing; [visualTransform] then returns the empty view
    model and leaves the host as it is. *)
Theorem visualTransform_early_return options host :
  let missing :=
    VisualUpdateOptions.dataViews options = None
    ∨ first_dataView options = None
    ∨ first_categorical options = None
    ∨ (first_categorical options ≫= DataViewCategorical.categories) = None
    ∨ (∃ category, category_series options = Some category
         ∧ (DataViewCategoryColumn.source category = None
            ∨ (first_categorical options ≫= DataViewCategorical.values) = None)) in
  (missing ↔ noData (VisualUpdateOptions.dataViews options) = Ok true)
  ∧ (missing → visualTransform options host = Ok (dataInfo, host)).
Proof.
  cbv zeta.
  assert (noData (VisualUpdateOptions.dataViews options) = Ok true →
          visualTransform options host = Ok (dataInfo, host)) as Hret.
  { apply visualTransform_noData. }
  cut ((VisualUpdateOptions.dataViews options = None
        ∨ first_dataView options = None
        ∨ first_categorical options = None
        ∨ (first_categorical options ≫= DataViewCategorical.categories) = None
        ∨ (∃ category, category_series options = Some category
             ∧ (DataViewCategoryColumn.source category = None
                ∨ (first_categorical options ≫= DataViewCategorical.values) = None)))
       ↔ noData (VisualUpdateOptions.dataViews options) = Ok true).
  { intros Hiff. split; [exact Hiff|]. intros H. by apply Hret, Hiff. }
  clear Hret. unfold category_series, first_categorical, first_dataView, noData.
  destruct (VisualUpdateOptions.dataViews options) as [dvs|]; simpl; [|by split; [|left]].
  destruct (dvs !! 0%nat) as [dv0|]; simpl; [|by split; [|right; left]].
  destruct (DataView.categorical dv0) as [c|]; simpl; [|by split; [|right; right; left]].
  destruct (DataViewCategorical.categories c) as [cats|]; simpl;
    [|by split; [|right; right; right; left]].
  destruct (cats !! 0%nat) as [cat0|]; simpl.
  - destruct (DataViewCategoryColumn.source cat0) as [s|] eqn:Hs.
    + destruct (DataViewCategorical.values c) as [vals|] eqn:Hv.
      * split; [|done].
        intros [?|[?|[?|[?|(category & [= <-] & [?|?])]]]]; congruence.
      * split; [done|]. intros _. do 4 right. exists cat0. split; [done|]. by right.
    + split; [done|]. intros _. do 4 right. exists cat0. split; [done|]. by left.
  - split; [|done].
    by intros [?|[?|[?|[?|(category & ? & _)]]]].
Qed.

(** X2.  [visualTransform] throws in two cases and no other: the
    categories array is there and empty, or the first category series has a
    source and the values array is there and empty.  What it throws is a
    [TypeError]. *)
Theorem visualTransform_throws_iff options host e :
  visualTransform options host = Throw e
  ↔ (first_categorical options ≫= DataViewCategorical.categories) = Some []
    ∨ (∃ category s,
         category_series options = Some category
         ∧ DataViewCategoryColumn.source category = Some s
         ∧ (first_categorical options ≫= DataViewCategorical.values) = Some []).
Proof.
  destruct e.
  unfold visualTransform, category_series, first_categorical, noData.
  destruct (VisualUpdateOptions.dataViews options) as [dvs|]; simpl;
    [|split; [done|by intros [?|(?&?&?&_)]]].
  destruct (dvs !! 0%nat) as [dv0|]; simpl;
    [|split; [done|by intros [?|(?&?&?&_)]]].
  destruct (DataView.categorical dv0) as [c|]; simpl;
    [|split; [done|by intros [?|(?&?&?&_)]]].
  destruct (DataViewCategorical.categories c) as [[|cat0 cats]|]; simpl.
  - split; [by left|done].
  - destruct (DataViewCategoryColumn.source cat0) as [s|] eqn:Hs; simpl.
    + destruct (DataViewCategorical.values c) as [[|v vals]|]; simpl.
      * split; [|done]. intros _. right. by exists cat0, s.
      * destruct (pushDataPoints _ _ _ _ _ _).
        split; [done|]. by intros [?|(?&?&?&?&?)].
      * split; [done|]. by intros [?|(?&?&?&?&?)].
    + split; [done|]. intros [?|(?&?&[= <-]&?&?)]; congruence.
  - split; [done|by intros [?|(?&?&?&_)]].
Qed.

(** ** Series of different lengths *)

(** Reading an array at the indices [0 .. len - 1], [len] being at least
    its length: the elements, then [undefined] up to [len]. *)
Lemma lookup_seq_pad {A} (l : list A) len :
  (length l ≤ len)%nat →
  (λ k, l !! k) <$> seq 0 len = (Some <$> l) ++ replicate (len - length l) None.
Proof.
  intros Hlen. apply list_eq. intros i.
  rewrite list_lookup_fmap.
  destruct (decide (i < length l)%nat) as [Hi|Hi].
  - rewrite lookup_app_l by by rewrite length_fmap.
    rewrite (proj2 (lookup_seq 0 len i i)) by (split; [done|lia]).
    rewrite list_lookup_fmap. simpl.
    by destruct (lookup_lt_is_Some_2 l i Hi) as [x ->].
  - rewrite lookup_app_r by (rewrite length_fmap; lia).
    rewrite length_fmap.
    destruct (decide (i < len)%nat) as [Hi'|Hi'].
    + rewrite (proj2 (lookup_seq 0 len i i)) by (split; [done|lia]).
      rewrite lookup_replicate_2 by lia. simpl.
      by rewrite lookup_ge_None_2 by lia.
    + rewrite lookup_seq_ge by lia. simpl.
      symmetry. apply lookup_replicate_None. lia.
Qed.

(** X3.  For a payload that passes the guard and has its two series, the
    categories of the data points are the categories of the series and
    the values of the data points are the values of the series, each
    followed by as many [undefined] as the series is shorter than the
    other.  No row is dropped and no fault is raised when the lengths
    differ. *)
Theorem visualTransform_pads_rows options host category dataValue :
  noData (VisualUpdateOptions.dataViews options) = Ok false →
  category_series options = Some category →
  value_series options = Some dataValue →
  let categories := DataViewCategoryColumn.values category in
  let values := DataViewValueColumn.values dataValue in
  ∃ vm host',
    visualTransform options host = Ok (vm, host')
    ∧ BarChartDataPoint.category <$> BarChartViewModel.dataPoints vm
      = (Some <$> categories) ++ replicate (length values - length categories) None
    ∧ BarChartDataPoint.value <$> BarChartViewModel.dataPoints vm
      = (Some <$> values) ++ replicate (length categories - length values) None.
Proof.
  intros Hg Hc Hv. cbv zeta.
  rewrite (visualTransform_valid _ host _ _ Hg Hc Hv). cbv zeta.
  eexists _, _. split; [done|].
  cbn [BarChartViewModel.dataPoints].
  destruct (pushDataPoints_rows host category dataValue
              (Nat.max (length (DataViewCategoryColumn.values category))
                       (length (DataViewValueColumn.values dataValue)))
              0 (IVisualHost.colorPalette host)) as [-> ->].
  rewrite !lookup_seq_pad by lia. split; do 2 f_equal; lia.
Qed.

Lemma visualTransform_pads_rows_witness :
  ∃ vm host',
    visualTransform one_category_three_values fresh_host = Ok (vm, host')
    ∧ BarChartDataPoint.category <$> BarChartViewModel.dataPoints vm
      = [Some "Q1"; None; None].
Proof.
  destruct (visualTransform_pads_rows one_category_three_values fresh_host
              {| DataViewCategoryColumn.source := Some quarter;
                 DataViewCategoryColumn.values := ["Q1"] |} amounts)
    as (vm & host' & Ht & Hc & _); [reflexivity..|].
  exists vm, host'. split; [exact Ht | exact Hc].
Defined.

(** ** Colours *)

(** X4.  In a view model that [visualTransform] returns, two data points
    whose category labels have the same key have the same colour, and a
    label for which the host palette held a colour before the call has
    that colour. *)
Theorem visualTransform_color_by_label options host vm host' :
  visualTransform options host = Ok (vm, host') →
  ∀ i d,
    BarChartViewModel.dataPoints vm !! i = Some d →
    (∀ j e,
       BarChartViewModel.dataPoints vm !! j = Some e →
       String (BarChartDataPoint.category d) = String (BarChartDataPoint.category e) →
       BarChartDataPoint.color d = BarChartDataPoint.color e)
    ∧ (∀ c,
         IColorPalette.colorPalette (IVisualHost.colorPalette host)
           !! String (BarChartDataPoint.category d) = Some c →
         BarChartDataPoint.color d = c).
Proof.
  intros H i d Hd.
  destruct (visualTransform_Ok _ _ _ _ H)
    as [(_ & -> & _)|(category & dataValue & Hg & Hc & Hv)]; [done|].
  rewrite (visualTransform_valid _ host _ _ Hg Hc Hv) in H. cbv zeta in H.
  injection H as <- <-. cbn [BarChartViewModel.dataPoints] in *.
  destruct (pushDataPoints_palette host category dataValue
              (Nat.max (length (DataViewCategoryColumn.values category))
                       (length (DataViewValueColumn.values dataValue)))
              0 (IVisualHost.colorPalette host)) as [Hsub Hknown].
  cbn [IVisualHost.colorPalette] in *.
  pose proof (Forall_lookup_1 _ _ _ _ Hknown Hd) as Hcd. simpl in Hcd. split.
  - intros j e He Hkey.
    pose proof (Forall_lookup_1 _ _ _ _ Hknown He) as Hce. simpl in Hce.
    rewrite Hkey in Hcd. congruence.
  - intros c Hcol. eapply lookup_weaken in Hcol; [|exact Hsub]. congruence.
Qed.

Lemma visualTransform_color_by_label_witness :
  ∃ vm host' d e,
    visualTransform repeated_label fresh_host = Ok (vm, host')
    ∧ BarChartViewModel.dataPoints vm !! 0%nat = Some d
    ∧ BarChartViewModel.dataPoints vm !! 2%nat = Some e
    ∧ BarChartDataPoint.color d = BarChartDataPoint.color e.
Proof.
  destruct (visualTransform repeated_label fresh_host) as [[vm host']|err] eqn:Ht;
    [|by vm_compute in Ht].
  destruct (BarChartViewModel.dataPoints vm !! 0%nat) as [d|] eqn:Hd;
    [|by vm_compute in Ht; injection Ht as <- _].
  destruct (BarChartViewModel.dataPoints vm !! 2%nat) as [e|] eqn:He;
    [|by vm_compute in Ht; injection Ht as <- _].
  exists vm, host', d, e. repeat split; try done.
  destruct (visualTransform_color_by_label repeated_label fresh_host vm host' Ht 0%nat d Hd)
    as [Hsame _].
  apply (Hsame 2%nat e He).
  vm_compute in Ht. injection Ht as <- _.
  vm_compute in Hd. vm_compute in He.
  injection Hd as <-. injection He as <-. reflexivity.
Defined.

(** ** What is read *)

(** X5.  [visualTransform] reads of a payload whether the first data view
    has a categorical part, whether the categories and the values of that
    part are there, and their first elements; two payloads that agree on
    these give the same result, whatever their viewports, their objects,
    their further data views and their further series are. *)
Theorem visualTransform_reads options1 options2 host :
  read_part options1 = read_part options2 →
  visualTransform options1 host = visualTransform options2 host.
Proof.
  unfold read_part, first_categorical, visualTransform, noData.
  destruct (VisualUpdateOptions.dataViews options1) as [dvs1|],
           (VisualUpdateOptions.dataViews options2) as [dvs2|]; simpl;
    try destruct (dvs1 !! 0%nat) as [dv1|]; try destruct (dvs2 !! 0%nat) as [dv2|];
    simpl;
    try destruct (DataView.categorical dv1) as [c1|];
    try destruct (DataView.categorical dv2) as [c2|]; simpl; try done.
  destruct (DataViewCategorical.categories c1) as [cats1|],
           (DataViewCategorical.categories c2) as [cats2|]; simpl; try done.
  destruct (DataViewCategorical.values c1) as [vals1|],
           (DataViewCategorical.values c2) as [vals2|]; simpl; try done.
  - intros [= -> ->]. done.
  - intros [= ->]. done.
Qed.

Lemma visualTransform_reads_witness :
  visualTransform scenario_elsewhere fresh_host = visualTransform scenario fresh_host.
Proof. apply visualTransform_reads. reflexivity. Defined.

(** * Further properties of the visual *)

(** ** An update that faults *)

(** X6.  When [visualTransform] throws, [update] ends with the same
    exception and has changed nothing of the visual but [settings], which
    holds the settings parsed from the payload; and the next update does
    what it would have done had the faulting update not been there. *)
Theorem update_fault_leaves_no_trace this options e :
  visualTransform options (Visual.host this) = Throw e →
  Visual.update this options
  = ({| Visual.svg := Visual.svg this;
        Visual.barContainer := Visual.barContainer this;
        Visual.settings := Some (Visual.parseSettings (first_dataView options));
        Visual.host := Visual.host this;
        Visual.xAxis := Visual.xAxis this;
        Visual.created := Visual.created this |},
     Abrupt e)
  ∧ ∀ options',
      Visual.update (fst (Visual.update this options)) options'
      = Visual.update this options'.
Proof.
  intros H. unfold Visual.update at 1 3. rewrite H. split; [done|].
  intros options'. unfold Visual.update. simpl.
  by destruct (visualTransform options' (Visual.host this)) as [[vm host']|e'].
Qed.

Lemma update_fault_leaves_no_trace_witness :
  snd (Visual.update rendered empty_values) = Abrupt TypeError
  ∧ Visual.barContainer (fst (Visual.update rendered empty_values))
    = Visual.barContainer rendered
  ∧ Visual.update (fst (Visual.update rendered empty_values)) scenario
    = Visual.update rendered scenario.
Proof.
  destruct (update_fault_leaves_no_trace rendered empty_values TypeError)
    as [Hu Hnext]; [reflexivity|].
  rewrite Hu. split; [reflexivity|]. split; [reflexivity|].
  rewrite <- Hu. apply Hnext.
Defined.

(** ** The settings that the property pane sees *)

(** X7.  [enumerateObjectInstances] passes on the default settings until
    the first update; after an update, completed or not, it passes on the
    settings parsed from the first data view of that update's payload; the
    continuation of a selection toggle does not change what it passes
    on. *)
Theorem enumerateObjectInstances_settings {O R : Type}
    (enumerate : VisualSettings.t → O → R) (pane : O) :
  (∀ host,
     Visual.enumerateObjectInstances enumerate (Visual.constructor host) pane
     = enumerate VisualSettings.getDefault pane)
  ∧ (∀ this options,
       Visual.enumerateObjectInstances enumerate (fst (Visual.update this options)) pane
       = enumerate (Visual.parseSettings (first_dataView options)) pane)
  ∧ (∀ this p ids,
       Visual.enumerateObjectInstances enumerate (Visual.resolved p ids this) pane
       = Visual.enumerateObjectInstances enumerate this pane).
Proof.
  split; [done|]. split; [|done].
  intros this options. unfold Visual.update. fold (first_dataView options).
  by destruct (visualTransform options (Visual.host this)) as [[vm host']|e].
Qed.

(** ** The geometry of a bar *)

(** X8.  The value scale at its edges, in the bars.  After an update with
    a plotting height [p] that is a finite double other than [-0] and a
    maximum [m] that is a number:
    - when [m] is a zero, every bar with a finite value has the [y] [p] and
      the height [0];
    - when [m] is not a zero, a bar with the value [v] has the [y]
      [p * (1 - v / m) + 0 * (v / m)] and the height [p] less that, as the
      doubles compute them; a bar whose value is a zero has the [y] [p] and
      the height [0], and a bar whose value is [m], for a finite [m], has
      the [y] [0] and the height [p];
    - a bar whose value is [undefined] has a height and a [y] that are not
      numbers.
    Nothing is clamped: the [y] of a value above [m] is what the formula
    gives. *)
Theorem update_bar_geometry this options this' vm host' p m :
  Visual.update this options = (this', Normal) →
  visualTransform options (Visual.host this) = Ok (vm, host') →
  Visual.plotHeight (Visual.parseSettings (first_dataView options))
    (IViewport.height (VisualUpdateOptions.viewport options)) = Some p →
  BarChartViewModel.dataMax vm = Some m →
  canonical p → is_finite p = true → p ≠ DZero true →
  ∀ r, r ∈ Visual.barContainer this' →
    match BarChartDataPoint.value (Rect.__data__ r) with
    | Some v =>
        (is_zero m = true → is_finite v = true →
         attribute r "y" = Some (ANumber (Some p))
         ∧ attribute r "height" = Some (ANumber (num 0)))
        ∧ (is_zero m = false →
           let y :=
             nadd (nmul (Some p) (nsub (num 1) (ndiv (Some v) (Some m))))
                  (nmul (num 0) (ndiv (Some v) (Some m))) in
           attribute r "y" = Some (ANumber y)
           ∧ attribute r "height" = Some (ANumber (nsub (Some p) y))
           ∧ (is_zero v = true → y = Some p ∧ nsub (Some p) y = num 0)
           ∧ (is_finite m = true → v = m → y = num 0 ∧ nsub (Some p) y = Some p))
    | None =>
        attribute r "height" = Some (ANumber NaN)
        ∧ attribute r "y" = Some (ANumber NaN)
    end.
Proof.
  intros Hu Ht Hp Hm Hc Hf Hneg r Hr.
  destruct (update_bar _ _ _ _ _ Hu Ht) as (_ & _ & Hbar).
  destruct (Hbar r Hr) as (_ & Hh & _ & Hy & _).
  rewrite Hh, Hy. unfold Visual.yScale. rewrite Hp, Hm.
  destruct (BarChartDataPoint.value (Rect.__data__ r)) as [v|].
  - split.
    + intros Hm0 Hv. destruct m as [s| |]; try done.
      assert (d3.scale.linear (@pair number number (num 0) (Some (DZero s)))
                (@pair number number (Some p) (num 0)) (Some v) = Some p) as ->
        by by apply linear_scale_flat.
      by rewrite nsub_diag.
    + intros Hm0. cbv zeta.
      assert (d3.scale.linear (@pair number number (num 0) (Some m))
                (@pair number number (Some p) (num 0)) (Some v)
              = nadd (nmul (Some p) (nsub (num 1) (ndiv (Some v) (Some m))))
                     (nmul (num 0) (ndiv (Some v) (Some m)))) as Hl
        by by apply linear_scale.
      rewrite Hl. split; [done|]. split; [done|].
      destruct (linear_scale_ends p m Hm0) as [H0 H1]. split.
      * intros Hv. destruct v as [s| |]; try done.
        rewrite <- Hl.
        assert (d3.scale.linear (@pair number number (num 0) (Some m))
                  (@pair number number (Some p) (num 0)) (Some (DZero s)) = Some p)
          as -> by exact (H0 Hc Hneg s).
        by rewrite nsub_diag.
      * intros Hfm ->. rewrite <- Hl.
        assert (d3.scale.linear (@pair number number (num 0) (Some m))
                  (@pair number number (Some p) (num 0)) (Some m) = num 0)
          as -> by exact (H1 Hfm Hf).
        by rewrite nsub_0.
  - assert (d3.scale.linear (@pair number number (num 0) (Some m))
              (@pair number number (Some p) (num 0)) None = NaN) as ->
      by apply linear_scale_NaN.
    done.
Qed.

(** The host reports 7 as the maximum of 10, 20, 5; the plotting height is
    300.  The bar of 20 is 857.1428571428571 high and its [y] is
    -557.1428571428571. *)
Lemma update_bar_geometry_witness :
  ∃ r,
    Visual.barContainer rendered_stale !! 1%nat = Some r
    ∧ attribute r "height" = Some (ANumber (dec 8571428571428571 10000000000000))
    ∧ attribute r "y" = Some (ANumber (dec (-5571428571428571) 10000000000000)).
Proof.
  destruct (Visual.barContainer rendered_stale !! 1%nat) as [r|] eqn:Hr;
    [|by vm_compute in Hr].
  exists r. split; [done|].
  destruct (visualTransform stale_maximum fresh_host) as [[vm host']|e] eqn:Ht;
    [|by vm_compute in Ht].
  pose proof (update_bar_geometry (Visual.constructor fresh_host) stale_maximum
                rendered_stale vm host' (double_of_Z 300) (double_of_Z 7)) as H.
  specialize (H eq_refl Ht eq_refl).
  assert (BarChartViewModel.dataMax vm = Some (double_of_Z 7)) as Hm
    by (vm_compute in Ht; by injection Ht as <- _).
  specialize (H Hm eq_refl eq_refl ltac:(done) r (list_elem_of_lookup_2 _ _ _ Hr)).
  vm_compute in Hr. injection Hr as <-.
  cbn [Rect.__data__ BarChartDataPoint.value] in H.
  destruct H as [_ H]. destruct (H eq_refl) as (Hy & Hh & _).
  rewrite Hh, Hy. split; by_computation.
Defined.

(** ** Opacity across updates *)

Lemma update_keeps_opacity_witness :
  ∃ r',
    Visual.barContainer (fst (Visual.update dimmed scenario)) !! 1%nat = Some r'
    ∧ attribute r' "fill-opacity" = Some (ANumber (dec 1 2)).
Proof.
  destruct (Visual.barContainer dimmed !! 1%nat) as [r|] eqn:Hr;
    [|by vm_compute in Hr].
  destruct (update_keeps_opacity dimmed scenario
              (fst (Visual.update dimmed scenario)) 1 r)
    as (r' & Hr' & _ & Hop); [by vm_compute|exact Hr|vm_compute; lia|].
  exists r'. split; [exact Hr'|]. rewrite Hop.
  vm_compute in Hr. injection Hr as <-. by_computation.
Defined.

(** ** Listeners in the states of the visual *)

Lemma listeners_current_update this options :
  listeners_current this → listeners_current (fst (Visual.update this options)).
Proof.
  intros Hl.
  destruct (Visual.update this options) as [this' [|e]] eqn:Hu; simpl.
  - destruct (update_Normal _ _ _ Hu) as (vm & host' & Ht & _).
    destruct (update_bar _ _ _ _ _ Hu Ht) as (_ & _ & Hbar).
    apply Forall_lookup. intros j r Hr. simpl.
    by destruct (Hbar r (list_elem_of_lookup_2 _ _ _ Hr)) as (_ & _ & _ & _ & _ & ?).
  - unfold Visual.update in Hu.
    destruct (visualTransform options (Visual.host this)) as [[vm host']|e']; [done|].
    injection Hu as <- _. done.
Qed.

(** A bar after the continuation of a toggle: the node, the datum, the
    listener and every attribute but the opacity are as before, and a bar
    that is neither in the selection of the listener nor the clicked one is
    as before altogether. *)
Lemma resolved_bar p ids this j r :
  Visual.barContainer this !! j = Some r →
  ∃ r',
    Visual.barContainer (Visual.resolved p ids this) !! j = Some r'
    ∧ Rect.node r' = Rect.node r
    ∧ Rect.__data__ r' = Rect.__data__ r
    ∧ Rect.onclick r' = Rect.onclick r
    ∧ (∀ name, name ≠ "fill-opacity" → attribute r' name = attribute r name)
    ∧ (Rect.node r ∉ Visual.bars p → Rect.node r ≠ Visual.clicked p → r' = r).
Proof.
  intros Hr. simpl. rewrite !list_lookup_fmap, Hr. simpl.
  eexists. split; [done|].
  repeat case_bool_decide; simpl; repeat split; try done;
    try (intros name Hname; unfold attribute; simpl;
         by rewrite ?lookup_insert_ne by done).
Qed.

Lemma listeners_current_resolved p ids this :
  listeners_current this → listeners_current (Visual.resolved p ids this).
Proof.
  unfold listeners_current. intros Hl. rewrite resolved_node.
  apply Forall_lookup. intros j r' Hr'.
  assert (∃ r, Visual.barContainer this !! j = Some r) as [r Hr].
  { apply lookup_lt_is_Some_2. apply lookup_lt_Some in Hr'.
    rewrite <- (length_fmap Rect.node), resolved_node, length_fmap in Hr'. done. }
  destruct (resolved_bar p ids this j r Hr) as (r1 & Hr1 & _ & _ & Hon & _).
  rewrite Hr1 in Hr'. injection Hr' as <-. rewrite Hon.
  by eapply Forall_lookup_1 in Hl.
Qed.

Lemma reachable_listeners_current this : reachable this → listeners_current this.
Proof.
  induction 1 as [host|this options _ IH|this p ids _ IH].
  - constructor.
  - by apply listeners_current_update.
  - by apply listeners_current_resolved.
Qed.

(** A click that found a listener found it on a bar. *)
Lemma click_Some this n p :
  Visual.click this n = Some p →
  ∃ k r l,
    Visual.barContainer this !! k = Some r
    ∧ Rect.node r = n
    ∧ Rect.onclick r = Some l
    ∧ p = {| Visual.request := BarChartDataPoint.selectionID (Rect.__data__ r);
             Visual.bars := ClickListener.bars l;
             Visual.clicked := n |}.
Proof.
  unfold Visual.click. intros H.
  destruct (list_find (λ r, Rect.node r = n) (Visual.barContainer this))
    as [[k r]|] eqn:Hf; [|done].
  apply list_find_Some in Hf as (Hk & Hn & _). simpl in H.
  destruct (Rect.onclick r) as [l|] eqn:Hl; [|done].
  injection H as <-. by exists k, r, l.
Qed.

(** X9.  In every state that the host can bring about, a click on a bar
    asks the selection manager to toggle the handle of the data point that
    is bound to that bar, and the continuation, run in that state, gives
    opacity 1 to the clicked bar and, to every other bar, 0.5 when the
    active selection is not empty and 1 when it is. *)
Theorem reachable_click this i r :
  reachable this →
  Visual.barContainer this !! i = Some r →
  ∃ p,
    Visual.click this (Rect.node r) = Some p
    ∧ Visual.request p = BarChartDataPoint.selectionID (Rect.__data__ r)
    ∧ Visual.bars p = Rect.node <$> Visual.barContainer this
    ∧ ∀ ids j r',
        Visual.barContainer (Visual.resolved p ids this) !! j = Some r' →
        attribute r' "fill-opacity"
        = Some (ANumber (if bool_decide (j = i) then num 1
                         else match ids with [] => num 1 | _ => dec 1 2 end)).
Proof.
  intros Hreach Hr.
  destruct (reachable_distinct_nodes _ Hreach) as [Hnd _].
  pose proof (reachable_listeners_current _ Hreach) as Hl.
  eapply Forall_lookup_1 in Hl; [|exact Hr]. simpl in Hl.
  eexists. split; [by eapply click_bar|]. split; [done|]. split; [done|].
  intros ids j r' Hr'.
  assert (∃ rj, Visual.barContainer this !! j = Some rj) as [rj Hrj].
  { apply lookup_lt_is_Some_2. apply lookup_lt_Some in Hr'.
    rewrite <- (length_fmap Rect.node), resolved_node, length_fmap in Hr'. done. }
  edestruct (resolved_opacity) as (r1 & Hr1 & Hop); [exact Hrj| |].
  2: { rewrite Hr1 in Hr'. injection Hr' as <-. rewrite Hop. simpl. do 2 f_equal.
       assert (Rect.node rj = Rect.node r ↔ j = i) as Hiff.
       { split.
         - intros Hn. eapply NoDup_lookup; [exact Hnd| |]; rewrite list_lookup_fmap.
           + rewrite Hrj. simpl. by rewrite Hn.
           + by rewrite Hr.
         - intros ->. rewrite Hr in Hrj. by injection Hrj as <-. }
       destruct (decide (Rect.node rj = Rect.node r)) as [Hn|Hn].
       - rewrite (bool_decide_eq_true_2 _ Hn).
         by rewrite (bool_decide_eq_true_2 (j = i)) by by apply Hiff.
       - rewrite (bool_decide_eq_false_2 _ Hn).
         by rewrite (bool_decide_eq_false_2 (j = i)) by by rewrite <- Hiff. }
  simpl. by eapply list_elem_of_fmap_2, list_elem_of_lookup_2.
Qed.

Lemma reachable_click_witness :
  ∃ p,
    Visual.click dimmed 1 = Some p
    ∧ opacities (Visual.resolved p [Visual.request p] dimmed)
      = [Some (ANumber (dec 1 2)); Some (ANumber (num 1)); Some (ANumber (dec 1 2))].
Proof.
  destruct (Visual.barContainer dimmed !! 1%nat) as [r|] eqn:Hr;
    [|by vm_compute in Hr].
  destruct (reachable_click dimmed 1 r) as (p & Hp & _); [|exact Hr|].
  { unfold dimmed. destruct (Visual.click rendered 0).
    - apply reachable_resolved, reachable_update, reachable_constructor.
    - apply reachable_update, reachable_constructor. }
  vm_compute in Hr. injection Hr as <-.
  exists p. split; [exact Hp|].
  vm_compute in Hp. injection Hp as <-. by_computation.
Defined.

(** ** A continuation that runs after a later update *)

(** X10.  A click is followed by an update, and only then does the
    continuation of the toggle run.  The bars that the update created are
    left as they are, whatever the active selection is: the listener holds
    the bars of its own update.  The bars that were there at the click and
    are still there get their opacity as if no update had come between,
    and keep everything else that the update gave them. *)
Theorem stale_continuation this n p options this' ids j r :
  reachable this →
  Visual.click this n = Some p →
  Visual.update this options = (this', Normal) →
  Visual.barContainer this' !! j = Some r →
  ∃ r',
    Visual.barContainer (Visual.resolved p ids this') !! j = Some r'
    ∧ Rect.__data__ r' = Rect.__data__ r
    ∧ (∀ name, name ≠ "fill-opacity" → attribute r' name = attribute r name)
    ∧ ((length (Visual.barContainer this) ≤ j)%nat → r' = r)
    ∧ ((j < length (Visual.barContainer this))%nat →
         attribute r' "fill-opacity"
         = Some (ANumber (if bool_decide (Rect.node r = n) then num 1
                          else match ids with [] => num 1 | _ => dec 1 2 end))).
Proof.
  intros Hreach Hclick Hu Hr.
  destruct (reachable_distinct_nodes _ Hreach) as [Hnd Hlt].
  pose proof (reachable_listeners_current _ Hreach) as Hl.
  destruct (click_Some _ _ _ Hclick) as (k & r0 & l & Hk & Hn & Hon & ->).
  eapply Forall_lookup_1 in Hl; [|exact Hk]. simpl in Hl.
  rewrite Hon in Hl. injection Hl as ->.
  destruct (update_Normal _ _ _ Hu) as (vm & host' & Ht & _).
  destruct (update_bar _ _ _ _ _ Hu Ht) as (Hdata & Hnodes & _).
  assert ((Rect.node <$> Visual.barContainer this') !! j = Some (Rect.node r)) as Hnode
    by by rewrite list_lookup_fmap, Hr.
  rewrite Hnodes in Hnode.
  set (p := {| Visual.request := BarChartDataPoint.selectionID (Rect.__data__ r0);
               Visual.bars := Rect.node <$> Visual.barContainer this;
               Visual.clicked := n |}).
  destruct (resolved_bar p ids this' j r Hr) as (r' & Hr' & _ & Hd & _ & Hattr & Hsame).
  exists r'. split; [done|]. split; [done|]. split; [done|]. split.
  - intros Hj. apply Hsame.
    + (* a new node is younger than every node of the listener *)
      intros Hin. simpl in Hin.
      apply list_elem_of_fmap in Hin as (r1 & Heq & Hin).
      apply list_elem_of_lookup in Hin as [k1 Hk1].
      eapply Forall_lookup_1 in Hlt; [|exact Hk1]. simpl in Hlt.
      rewrite lookup_app_r in Hnode
        by (rewrite length_fmap, length_take; lia).
      apply lookup_seq in Hnode as [Hnode _]. lia.
    + simpl. intros Heq.
      eapply Forall_lookup_1 in Hlt; [|exact Hk]. simpl in Hlt.
      rewrite lookup_app_r in Hnode
        by (rewrite length_fmap, length_take; lia).
      apply lookup_seq in Hnode as [Hnode _]. lia.
  - intros Hj.
    destruct (resolved_opacity p ids this' j r Hr) as (r1 & Hr1 & Hop).
    + simpl.
      rewrite lookup_app_l in Hnode.
      2: { apply lookup_lt_Some in Hr.
           rewrite <- (length_fmap Rect.__data__), Hdata in Hr.
           rewrite length_fmap, length_take. lia. }
      rewrite list_lookup_fmap in Hnode.
      destruct (take _ _ !! j) as [r2|] eqn:Hr2; [|done].
      injection Hnode as <-.
      apply lookup_take_Some in Hr2 as [Hr2 _].
      by eapply list_elem_of_fmap_2, list_elem_of_lookup_2.
    + rewrite Hr1 in Hr'. injection Hr' as <-. exact Hop.
Qed.

Lemma stale_continuation_witness :
  ∃ p r,
    Visual.click rendered 0 = Some p
    ∧ Visual.barContainer (fst (Visual.update rendered four_quarters)) !! 3%nat = Some r
    ∧ Visual.barContainer
        (Visual.resolved p [Visual.request p] (fst (Visual.update rendered four_quarters)))
        !! 3%nat = Some r.
Proof.
  destruct (Visual.click rendered 0) as [p|] eqn:Hp; [|by vm_compute in Hp].
  destruct (Visual.barContainer (fst (Visual.update rendered four_quarters)) !! 3%nat)
    as [r|] eqn:Hr; [|by vm_compute in Hr].
  exists p, r. split; [done|]. split; [done|].
  destruct (stale_continuation rendered 0 p four_quarters
              (fst (Visual.update rendered four_quarters)) [Visual.request p] 3 r)
    as (r' & Hr' & _ & _ & Hsame & _);
    [apply reachable_update, reachable_constructor|exact Hp|by vm_compute|exact Hr|].
  rewrite Hr'. f_equal. apply Hsame. vm_compute. lia.
Defined.

(** ** The same update again *)

(** A second run of the loop, from a palette that has kept what the first
    run left, gives the same data points and leaves the palette as it
    is. *)
Lemma pushDataPoints_replay host host' category dataValue n : ∀ i p q,
  IColorPalette.colorPalette (snd (pushDataPoints host category dataValue i n p))
    ⊆ IColorPalette.colorPalette q →
  pushDataPoints host' category dataValue i n q
  = (fst (pushDataPoints host category dataValue i n p), q).
Proof.
  induction n as [|n IH]; intros i p q Hsub; simpl; [done|].
  simpl in Hsub.
  destruct (IColorPalette.getColor p _) as [ci p1] eqn:Hc.
  destruct (getColor_spec _ _ _ _ Hc) as [_ Hk].
  pose proof (pushDataPoints_palette host category dataValue n (S i) p1) as [Hgrow _].
  specialize (IH (S i) p1 q).
  destruct (pushDataPoints host category dataValue (S i) n p1) as [pts p2].
  simpl in *.
  rewrite (getColor_known q _ (IColorInfo.value ci));
    [|by eapply lookup_weaken; [eapply lookup_weaken|]].
  by rewrite (IH Hsub).
Qed.

(** [visualTransform] again, on the host as the first call left it: the
    same view model, and the host is left as it is. *)
Lemma visualTransform_replay options host vm host' :
  visualTransform options host = Ok (vm, host') →
  visualTransform options host' = Ok (vm, host').
Proof.
  intros H.
  destruct (visualTransform_Ok _ _ _ _ H)
    as [(Hg & -> & ->)|(category & dataValue & Hg & Hc & Hv)].
  - by apply visualTransform_noData.
  - rewrite (visualTransform_valid _ host _ _ Hg Hc Hv) in H. cbv zeta in H.
    injection H as <- <-.
    rewrite (visualTransform_valid _ _ _ _ Hg Hc Hv). cbv zeta.
    cbn [IVisualHost.colorPalette].
    by rewrite (pushDataPoints_replay host _ category dataValue _ 0
                  (IVisualHost.colorPalette host)).
Qed.

(** Bars that carry the data already are joined to themselves, and no bar
    enters. *)
Lemma joined_same old next values :
  Rect.__data__ <$> old = values → joined old next values = old.
Proof.
  intros <-. unfold joined. simpl.
  rewrite drop_ge by (by rewrite length_fmap). simpl. rewrite app_nil_r.
  induction old as [|[node data attrs onclick] old IH]; [done|].
  cbn [fmap list_fmap zip_with Rect.__data__]. f_equal. exact IH.
Qed.

(** Giving a bar the attributes and the listener that it has changes
    nothing. *)
Lemma bar_attr_same xScale yScale height l r :
  attribute r "width" = Some (ANumber (d3.scale.rangeBand xScale)) →
  attribute r "height"
  = Some (ANumber (nsub height (yScale (BarChartDataPoint.value (Rect.__data__ r))))) →
  attribute r "x"
  = Some (ANumber (d3.scale.call xScale (BarChartDataPoint.category (Rect.__data__ r)))) →
  attribute r "y" = Some (ANumber (yScale (BarChartDataPoint.value (Rect.__data__ r)))) →
  attribute r "fill" = Some (AString (BarChartDataPoint.color (Rect.__data__ r))) →
  Rect.onclick r = Some l →
  Rect.on_click l (Visual.bar_attr xScale yScale height r) = r.
Proof.
  destruct r as [node data attrs onclick]. unfold attribute. simpl.
  intros Hw Hh Hx Hy Hf ->.
  unfold Rect.on_click, Visual.bar_attr, Rect.attr. simpl. f_equal.
  by rewrite (insert_id _ _ _ Hw), (insert_id _ _ _ Hh), (insert_id _ _ _ Hx),
             (insert_id _ _ _ Hy), (insert_id _ _ _ Hf).
Qed.

(** The state after an update whose view model is [vm], written with
    [joined]. *)
Lemma update_Ok this options vm host' :
  visualTransform options (Visual.host this) = Ok (vm, host') →
  let settings := Visual.parseSettings (first_dataView options) in
  let width := IViewport.width (VisualUpdateOptions.viewport options) in
  let H := IViewport.height (VisualUpdateOptions.viewport options) in
  let height := Visual.plotHeight settings H in
  let bars :=
    Visual.bar_attr (Visual.xScale vm width) (Visual.yScale vm height) height
      <$> joined (Visual.barContainer this) (Visual.created this)
                 (BarChartViewModel.dataPoints vm) in
  Visual.update this options
  = ({| Visual.svg :=
          <["height" := ANumber H]> (<["width" := ANumber width]> (Visual.svg this));
        Visual.barContainer :=
          Rect.on_click {| ClickListener.bars := Rect.node <$> bars |} <$> bars;
        Visual.settings := Some settings;
        Visual.host := host';
        Visual.xAxis :=
          {| Axis.style :=
               <["font-size" := ANumber (Visual.fontSize height width)]>
                 (Axis.style (Visual.xAxis this));
             Axis.attrs :=
               <["transform" := ATranslate (num 0) height]>
                 (Axis.attrs (Visual.xAxis this));
             Axis.ticks := d3.scale.domain (Visual.xScale vm width) |};
        Visual.created :=
          Visual.created this
          + (length (BarChartViewModel.dataPoints vm)
             - length (Visual.barContainer this)) |},
     Normal).
Proof.
  intros Ht. cbv zeta. unfold Visual.update. fold (first_dataView options).
  rewrite Ht. cbv zeta. do 2 f_equal.
  unfold selection.append. simpl. by rewrite length_imap, length_drop.
Qed.

(** X11.  An update that has completed, made again with the same payload,
    completes and changes nothing: the bars are the same nodes with the
    same data, attributes and listeners, no node is created or removed, and
    the root, the axis, the settings and the host palette are as the first
    update left them. *)
Theorem update_idempotent this options this' :
  Visual.update this options = (this', Normal) →
  Visual.update this' options = (this', Normal).
Proof.
  intros Hu.
  destruct (update_Normal _ _ _ Hu) as (vm & host' & Ht & _).
  destruct (update_bar _ _ _ _ _ Hu Ht) as (Hdata & _ & Hbar).
  pose proof (visualTransform_replay _ _ _ _ Ht) as Ht'.
  pose proof (update_Ok _ _ _ _ Ht) as Hu'. cbv zeta in Hu'.
  rewrite Hu in Hu'. injection Hu' as Hthis.
  assert (Visual.host this' = host') as Hh by (by rewrite Hthis).
  rewrite <- Hh in Ht'.
  rewrite (update_Ok _ _ _ _ Ht'). cbv zeta. f_equal.
  rewrite (joined_same _ _ _ Hdata), <- Hdata, length_fmap, Nat.sub_diag, Nat.add_0_r.
  assert (Rect.on_click
            {| ClickListener.bars :=
                 Rect.node <$>
                   (Visual.bar_attr
                      (Visual.xScale vm
                         (IViewport.width (VisualUpdateOptions.viewport options)))
                      (Visual.yScale vm
                         (Visual.plotHeight (Visual.parseSettings (first_dataView options))
                            (IViewport.height (VisualUpdateOptions.viewport options))))
                      (Visual.plotHeight (Visual.parseSettings (first_dataView options))
                         (IViewport.height (VisualUpdateOptions.viewport options)))
                    <$> Visual.barContainer this') |}
          <$> (Visual.bar_attr
                 (Visual.xScale vm
                    (IViewport.width (VisualUpdateOptions.viewport options)))
                 (Visual.yScale vm
                    (Visual.plotHeight (Visual.parseSettings (first_dataView options))
                       (IViewport.height (VisualUpdateOptions.viewport options))))
                 (Visual.plotHeight (Visual.parseSettings (first_dataView options))
                    (IViewport.height (VisualUpdateOptions.viewport options)))
               <$> Visual.barContainer this')
          = Visual.barContainer this') as ->.
  { rewrite <- !list_fmap_compose.
    etrans; [|apply list_fmap_id]. apply list_fmap_ext. intros j r Hr. simpl.
    destruct (Hbar r (list_elem_of_lookup_2 _ _ _ Hr)) as (H1 & H2 & H3 & H4 & H5 & H6).
    by apply bar_attr_same. }
  assert (Visual.svg this'
          = <["height" := ANumber (IViewport.height (VisualUpdateOptions.viewport options))]>
              (<["width" := ANumber (IViewport.width (VisualUpdateOptions.viewport options))]>
                 (Visual.svg this))) as Hsvg by (by rewrite Hthis).
  assert (Visual.settings this'
          = Some (Visual.parseSettings (first_dataView options))) as Hs
    by (by rewrite Hthis).
  assert (∃ style attrs,
            Visual.xAxis this'
            = {| Axis.style :=
                   <["font-size" :=
                       ANumber (Visual.fontSize
                                  (Visual.plotHeight
                                     (Visual.parseSettings (first_dataView options))
                                     (IViewport.height (VisualUpdateOptions.viewport options)))
                                  (IViewport.width (VisualUpdateOptions.viewport options)))]>
                     style;
                 Axis.attrs :=
                   <["transform" :=
                       ATranslate (num 0)
                         (Visual.plotHeight
                            (Visual.parseSettings (first_dataView options))
                            (IViewport.height (VisualUpdateOptions.viewport options)))]>
                     attrs;
                 Axis.ticks :=
                   d3.scale.domain
                     (Visual.xScale vm
                        (IViewport.width (VisualUpdateOptions.viewport options))) |})
    as (style & attrs & Haxis) by (rewrite Hthis; by eexists _, _).
  clear Hthis Hbar Hu Ht Ht'.
  destruct this' as [svg bars settings host xAxis created]. simpl in *.
  subst svg settings xAxis. simpl.
  rewrite !insert_insert_eq.
  rewrite (insert_id _ "width"); [|by simplify_map_eq].
  by rewrite insert_insert_eq.
Qed.

Lemma update_idempotent_witness :
  Visual.update (fst (Visual.update dimmed four_quarters)) four_quarters
  = (fst (Visual.update dimmed four_quarters), Normal).
Proof. apply (update_idempotent dimmed). by vm_compute. Defined.

(** ** Rows with one label *)

(** The palette that [visualTransform] leaves holds the colour of every
    data point under the key of its label. *)
Lemma visualTransform_palette options host vm host' :
  visualTransform options host = Ok (vm, host') →
  Forall (λ d, IColorPalette.colorPalette (IVisualHost.colorPalette host')
                 !! String (BarChartDataPoint.category d)
               = Some (BarChartDataPoint.color d))
         (BarChartViewModel.dataPoints vm).
Proof.
  intros H.
  destruct (visualTransform_Ok _ _ _ _ H)
    as [(_ & -> & _)|(category & dataValue & Hg & Hc & Hv)]; [by constructor|].
  rewrite (visualTransform_valid _ host _ _ Hg Hc Hv) in H. cbv zeta in H.
  injection H as <- <-. cbn [BarChartViewModel.dataPoints IVisualHost.colorPalette].
  apply (pushDataPoints_palette host category dataValue).
Qed.

(** X13.  After a completed update, two bars whose rows have labels with
    the same key are drawn over each other: they have the same [x], the
    same [width] and the same [fill] (the category scale files a label
    under its key, and so does the palette). *)
Theorem update_same_label this options this' i j ri rj :
  Visual.update this options = (this', Normal) →
  Visual.barContainer this' !! i = Some ri →
  Visual.barContainer this' !! j = Some rj →
  String (BarChartDataPoint.category (Rect.__data__ ri))
  = String (BarChartDataPoint.category (Rect.__data__ rj)) →
  attribute ri "x" = attribute rj "x"
  ∧ attribute ri "width" = attribute rj "width"
  ∧ attribute ri "fill" = attribute rj "fill".
Proof.
  intros Hu Hi Hj Hkey.
  destruct (update_Normal _ _ _ Hu) as (vm & host' & Ht & _).
  destruct (update_bar _ _ _ _ _ Hu Ht) as (Hdata & _ & Hbar).
  destruct (Hbar ri (list_elem_of_lookup_2 _ _ _ Hi)) as (Hwi & _ & Hxi & _ & Hfi & _).
  destruct (Hbar rj (list_elem_of_lookup_2 _ _ _ Hj)) as (Hwj & _ & Hxj & _ & Hfj & _).
  pose proof (visualTransform_palette _ _ _ _ Ht) as Hpal.
  assert (BarChartViewModel.dataPoints vm !! i = Some (Rect.__data__ ri)) as Hdi
    by (by rewrite <- Hdata, list_lookup_fmap, Hi).
  assert (BarChartViewModel.dataPoints vm !! j = Some (Rect.__data__ rj)) as Hdj
    by (by rewrite <- Hdata, list_lookup_fmap, Hj).
  pose proof (Forall_lookup_1 _ _ _ _ Hpal Hdi) as Hci.
  pose proof (Forall_lookup_1 _ _ _ _ Hpal Hdj) as Hcj.
  simpl in Hci, Hcj. rewrite Hkey in Hci.
  split; [|split].
  - rewrite Hxi, Hxj. unfold d3.scale.call. by rewrite Hkey.
  - by rewrite Hwi, Hwj.
  - rewrite Hfi, Hfj. congruence.
Qed.

Lemma update_same_label_witness :
  ∃ r0 r2,
    Visual.barContainer (fst (Visual.update rendered repeated_label)) !! 0%nat = Some r0
    ∧ Visual.barContainer (fst (Visual.update rendered repeated_label)) !! 2%nat = Some r2
    ∧ attribute r0 "x" = attribute r2 "x"
    ∧ attribute r0 "fill" = attribute r2 "fill".
Proof.
  destruct (Visual.barContainer (fst (Visual.update rendered repeated_label)) !! 0%nat)
    as [r0|] eqn:H0; [|by vm_compute in H0].
  destruct (Visual.barContainer (fst (Visual.update rendered repeated_label)) !! 2%nat)
    as [r2|] eqn:H2; [|by vm_compute in H2].
  exists r0, r2. split; [done|]. split; [done|].
  destruct (update_same_label rendered repeated_label
              (fst (Visual.update rendered repeated_label)) 0 2 r0 r2)
    as (Hx & _ & Hf); [by vm_compute|exact H0|exact H2| |done].
  vm_compute in H0. vm_compute in H2. injection H0 as <-. injection H2 as <-.
  reflexivity.
Defined.
